(** * Miles: card-name resolution, catalog search, benefit matching and
      transfer-partner lookups

    A shallow embedding of the query functions of [data_storage.py] and
    [tools.py], and the properties of them that the specification states.
    The functions read JSON documents that [json.load] has parsed; the
    embedding keeps the documents dynamically typed, as the Python code
    does, and threads Python exceptions through an error monad.

    Conventions of the embedding.
    - The documents are arguments: the catalog is a list and the partner
      table a dict, as the annotations of the loaders say, and their
      elements are arbitrary JSON values.  The merged valuations are a
      [dict[str, float]].
    - A Python [dict] is an association list in insertion order.
    - A Python [str] is a [string]; [lower], [strip] and [split] are the
      ASCII restrictions of the Python methods.
    - A Python [int] is a [Z].  A finite Python [float] is the rational it
      denotes: floats are only compared here, and on finite floats the
      comparisons agree with those of the rationals.  The literals NaN and
      Infinity, which JSON does not have, are outside the model, and so is
      the overflow of an [int] that is too large for a [float].
    - Texts that only render other fields of a result ([summary],
      [bonus_percentage], [effective_ratio], the match reasons) are kept
      as the values they render.
    - [datetime.now()] is an argument; the time stamp [last_updated_utc]
      and the echo of the query in a result are left out. *)

From Stdlib Require Import List String Ascii Bool ZArith QArith Lia Lqa.
From Stdlib Require Import Sorted Permutation DecimalString.
Import ListNotations.

Local Open Scope string_scope.
Local Open Scope list_scope.
Local Open Scope Z_scope.

Set Implicit Arguments.
Set Warnings "-register-all".

(** ** Python values *)

Module Py.

(** Exceptions the modelled code can raise. *)
Inductive exn : Type :=
| AttributeError
| TypeError
| KeyError
| OverflowError.

(** The result of evaluating a Python expression. *)
Inductive res (A : Type) : Type :=
| Ok (a : A)
| Raise (e : exn).

Arguments Ok {A} a.
Arguments Raise {A} e.

Definition bind {A B : Type} (m : res A) (k : A -> res B) : res B :=
  match m with
  | Ok a => k a
  | Raise e => Raise e
  end.

(** Numbers: [int] and (finite) [float]. *)
Inductive num : Type :=
| PInt (z : Z)
| PFloat (q : Q).

Definition num_val (n : num) : Q :=
  match n with
  | PInt z => inject_Z z
  | PFloat q => q
  end.

(** What [json.load] produces. *)
Inductive json : Type :=
| JNull
| JBool (b : bool)
| JNum (n : num)
| JStr (s : string)
| JList (l : list json)
| JDict (d : list (string * json)).

(** [bool(v)]. *)
Definition truthy (v : json) : bool :=
  match v with
  | JNull => false
  | JBool b => b
  | JNum n => negb (Qeq_bool (num_val n) 0)
  | JStr s => negb (String.eqb s "")
  | JList l => match l with [] => false | _ => true end
  | JDict d => match d with [] => false | _ => true end
  end.

(** [isinstance(v, (int, float))]; [bool] is a subclass of [int]. *)
Definition is_number (v : json) : bool :=
  match v with
  | JBool _ | JNum _ => true
  | _ => false
  end.

(** [isinstance(v, int)]. *)
Definition is_int (v : json) : bool :=
  match v with
  | JBool _ | JNum (PInt _) => true
  | _ => false
  end.

(** The numeric value of a number ([True] is 1, [False] is 0). *)
Definition number_val (v : json) : option Q :=
  match v with
  | JBool b => Some (if b then 1%Q else 0%Q)
  | JNum n => Some (num_val n)
  | _ => None
  end.

(** The value of an [int]. *)
Definition int_val (v : json) : option Z :=
  match v with
  | JBool b => Some (if b then 1 else 0)
  | JNum (PInt z) => Some z
  | _ => None
  end.

(** Lookup in a dict. *)
Fixpoint lookup (d : list (string * json)) (k : string) : option json :=
  match d with
  | [] => None
  | (k', v) :: r => if String.eqb k' k then Some v else lookup r k
  end.

(** [v.get(k, default)]: only a dict has [get]. *)
Definition get (v : json) (k : string) (default : json) : res json :=
  match v with
  | JDict d => Ok (match lookup d k with Some x => x | None => default end)
  | _ => Raise AttributeError
  end.

(** [v.get(k)]. *)
Definition get_opt (v : json) (k : string) : res json := get v k JNull.

(** [list(v)], the values a [for] loop over [v] visits. *)
Definition iter (v : json) : res (list json) :=
  match v with
  | JList l => Ok l
  | JStr s => Ok (map (fun c => JStr (String c "")) (list_ascii_of_string s))
  | JDict d => Ok (map (fun kv => JStr (fst kv)) d)
  | _ => Raise TypeError
  end.

(** [len(v)]. *)
Definition len (v : json) : res Z :=
  match v with
  | JList l => Ok (Z.of_nat (List.length l))
  | JStr s => Ok (Z.of_nat (String.length s))
  | JDict d => Ok (Z.of_nat (List.length d))
  | _ => Raise TypeError
  end.

(** *** Strings *)

Definition lower_ascii (c : ascii) : ascii :=
  let n := nat_of_ascii c in
  if ((65 <=? n) && (n <=? 90))%nat then ascii_of_nat (n + 32) else c.

Fixpoint lower (s : string) : string :=
  match s with
  | EmptyString => EmptyString
  | String c r => String (lower_ascii c) (lower r)
  end.

(** [v.lower()]: only a [str] has [lower]. *)
Definition lower_of (v : json) : res string :=
  match v with
  | JStr s => Ok (lower s)
  | _ => Raise AttributeError
  end.

(** ASCII characters for which [str.isspace] holds. *)
Definition is_space (c : ascii) : bool :=
  let n := nat_of_ascii c in
  (((9 <=? n) && (n <=? 13)) || ((28 <=? n) && (n <=? 32)))%nat.

Fixpoint lstrip (s : string) : string :=
  match s with
  | EmptyString => EmptyString
  | String c r => if is_space c then lstrip r else s
  end.

Fixpoint rstrip (s : string) : string :=
  match s with
  | EmptyString => EmptyString
  | String c r =>
      match rstrip r with
      | EmptyString => if is_space c then EmptyString else String c EmptyString
      | r' => String c r'
      end
  end.

Definition strip (s : string) : string := rstrip (lstrip s).

(** [s.split()]: the maximal runs of non-space characters. *)
Fixpoint split_from (cur : string) (s : string) : list string :=
  match s with
  | EmptyString => match cur with EmptyString => [] | _ => [cur] end
  | String c r =>
      if is_space c
      then match cur with
           | EmptyString => split_from EmptyString r
           | _ => cur :: split_from EmptyString r
           end
      else split_from (cur ++ String c EmptyString)%string r
  end.

Definition split (s : string) : list string := split_from EmptyString s.

(** [needle in hay] on strings. *)
Fixpoint contains (needle hay : string) : bool :=
  String.prefix needle hay
  || match hay with
     | EmptyString => false
     | String _ r => contains needle r
     end.

(** [s.replace(a, b)] for one-character [a] and [b]. *)
Fixpoint replace (a b : ascii) (s : string) : string :=
  match s with
  | EmptyString => EmptyString
  | String c r => String (if Ascii.eqb c a then b else c) (replace a b r)
  end.

(** [x in xs] on a list of strings. *)
Definition mem (x : string) (xs : list string) : bool :=
  existsb (String.eqb x) xs.

End Py.

Import Py.

Notation "x <- c1 ;; c2" := (Py.bind c1 (fun x => c2))
  (at level 61, c1 at next level, right associativity).

(** ** data_storage.py *)

Module DataStorage.

(** Keys of a Python dict: lists and dicts are unhashable. *)
Definition hashable (v : json) : bool :=
  match v with
  | JList _ | JDict _ => false
  | _ => true
  end.

(** [a == b] on hashable values: numbers compare by value, so [1],
    [1.0] and [True] are the same key. *)
Definition key_eqb (a b : json) : bool :=
  match a, b with
  | JStr x, JStr y => String.eqb x y
  | JNull, JNull => true
  | _, _ =>
      match number_val a, number_val b with
      | Some x, Some y => Qeq_bool x y
      | _, _ => false
      end
  end.

(** A dict keyed by values, in insertion order. *)
Definition table : Type := list (json * json).

(** [d[k] = v] on an already hashed key: an existing key keeps its place
    and its key object, a new key goes last. *)
Fixpoint store (d : table) (k v : json) : table :=
  match d with
  | [] => [(k, v)]
  | (k', v') :: r =>
      if key_eqb k' k then (k', v) :: r else (k', v') :: store r k v
  end.

(** [d[k] = v]. *)
Definition setitem (d : table) (k v : json) : res table :=
  if hashable k then Ok (store d k v) else Raise TypeError.

(** [d[k]]. *)
Fixpoint getitem (d : table) (k : json) : res json :=
  match d with
  | [] => Raise KeyError
  | (k', v) :: r => if key_eqb k' k then Ok v else getitem r k
  end.

(** [{card.get("card_name", ""): card for card in cards
      if card.get("card_name")}], started from [acc]. *)
Fixpoint build_lookup (cards : list json) (acc : table) : res table :=
  match cards with
  | [] => Ok acc
  | card :: rest =>
      n <- get_opt card "card_name" ;;
      if truthy n then
        k <- get card "card_name" (JStr "") ;;
        acc' <- setitem acc k card ;;
        build_lookup rest acc'
      else build_lookup rest acc
  end.

(** The exact-match loop: [Some card] when it returns from inside the
    loop, [None] when the loop runs to its end. *)
Fixpoint exact_match (card_lookup : table) (card_name_lower : string)
    (card_names : list json) : res (option json) :=
  match card_names with
  | [] => Ok None
  | name :: rest =>
      l <- lower_of name ;;
      if String.eqb card_name_lower l
      then card <- getitem card_lookup name ;; Ok (Some card)
      else exact_match card_lookup card_name_lower rest
  end.

Section Fuzzy.

(** [rapidfuzz.fuzz.WRatio], a similarity score between 0 and 100. *)
Variable WRatio : string -> string -> Q.

(** Modelled from the spec: [rapidfuzz.process.extractOne] is a library
    function outside the repository.  It scores every choice against the
    query and returns the maximum-scoring choice, the first one seen on a
    tie, provided its score reaches [score_cutoff]; otherwise [None].
    The loop keeps the best accepted choice so far in [result]. *)
Fixpoint extractOne_from (query : string) (score_cutoff : Q)
    (result : option (json * Q)) (choices : list json)
    : res (option (json * Q)) :=
  match choices with
  | [] => Ok result
  | choice :: rest =>
      match choice with
      | JStr s =>
          let score := WRatio query s in
          let better :=
            match result with
            | None => true
            | Some (_, best) => negb (Qle_bool score best)
            end in
          if Qle_bool score_cutoff score && better
          then extractOne_from query score_cutoff (Some (choice, score)) rest
          else extractOne_from query score_cutoff result rest
      | _ => Raise TypeError
      end
  end.

Definition extractOne (query : string) (choices : list json)
    (score_cutoff : Q) : res (option (json * Q)) :=
  extractOne_from query score_cutoff None choices.

(** [get_credit_card_by_name], with the catalog that [get_credit_cards]
    loads and the module constant [FUZZY_MATCH_THRESHOLD] as arguments. *)
Definition get_credit_card_by_name (FUZZY_MATCH_THRESHOLD : Z)
    (cards : list json) (card_name : string) : res (option json) :=
  match cards with
  | [] => Ok None
  | _ =>
      let card_name_lower := strip (lower card_name) in
      card_lookup <- build_lookup cards [] ;;
      let card_names := map fst card_lookup in
      hit <- exact_match card_lookup card_name_lower card_names ;;
      match hit with
      | Some card => Ok (Some card)
      | None =>
          result <- extractOne card_name card_names
                      (inject_Z FUZZY_MATCH_THRESHOLD) ;;
          match result with
          | Some (matched_name, _) =>
              card <- getitem card_lookup matched_name ;; Ok (Some card)
          | None => Ok None
          end
      end
  end.

End Fuzzy.

End DataStorage.

(** ** tools.py *)

Module Tools.

(** What a tool hands back: every tool body is wrapped in
    [try: ... except Exception as e: return json.dumps({"error": str(e)})],
    and returns early with an error object when an argument is rejected. *)
Inductive tool_result (A : Type) : Type :=
| Invalid (msg : string)
| Failed (e : exn)
| Done (a : A).

Arguments Invalid {A} msg.
Arguments Failed {A} e.
Arguments Done {A} a.

Definition try_except {A : Type} (body : res (tool_result A)) : tool_result A :=
  match body with
  | Ok r => r
  | Raise e => Failed e
  end.

(** [l.sort(key=..., reverse=True)] on keys that are totally ordered:
    a stable sort into descending order.  [lt a b] says that the key of
    [a] is below the key of [b]. *)
Section Sort.

Variable A : Type.
Variable lt : A -> A -> bool.

Fixpoint insert_desc (x : A) (l : list A) : list A :=
  match l with
  | [] => [x]
  | y :: r => if lt x y then y :: insert_desc x r else x :: y :: r
  end.

Fixpoint sort_desc (l : list A) : list A :=
  match l with
  | [] => []
  | x :: r => insert_desc x (sort_desc r)
  end.

End Sort.

(** *** Dates *)

(** A naive [datetime]: the proleptic Gregorian ordinal of its day
    (1 is 0001-01-01) and the microsecond within the day. *)
Record datetime : Type := mkDatetime { dt_day : Z; dt_usec : Z }.

Definition datetime_ge (a b : datetime) : bool :=
  (dt_day b <? dt_day a)
  || ((dt_day a =? dt_day b) && (dt_usec b <=? dt_usec a)).

(** [now - timedelta(days=n)]: the timedelta constructor and the
    subtraction both raise [OverflowError] when out of range. *)
Definition minus_days (now : datetime) (n : Z) : res datetime :=
  if 999999999 <? Z.abs n then Raise OverflowError
  else
    let d := dt_day now - n in
    if (d <? 1) || (3652059 <? d) then Raise OverflowError
    else Ok (mkDatetime d (dt_usec now)).

Definition is_leap (y : Z) : bool :=
  (y mod 4 =? 0) && (negb (y mod 100 =? 0) || (y mod 400 =? 0)).

Definition days_in_month (y m : Z) : Z :=
  if m =? 2 then (if is_leap y then 29 else 28)
  else if (m =? 4) || (m =? 6) || (m =? 9) || (m =? 11) then 30
  else 31.

Definition days_before_year (y : Z) : Z :=
  let p := y - 1 in p * 365 + p / 4 - p / 100 + p / 400.

Fixpoint days_before_month_from (y : Z) (m : nat) : Z :=
  match m with
  | O => 0
  | S k => days_before_month_from y k + days_in_month y (Z.of_nat (S k))
  end.

Definition days_before_month (y m : Z) : Z :=
  days_before_month_from y (Z.to_nat (m - 1)).

(** [date(y, m, d).toordinal()], or [None] for the [ValueError] of a day
    that the month does not have. *)
Definition ymd2ord (y m d : Z) : option Z :=
  if (1 <=? m) && (m <=? 12) && (1 <=? d) && (d <=? days_in_month y m)
  then Some (days_before_year y + days_before_month y m + d)
  else None.

Definition digit (c : ascii) : option Z :=
  let n := nat_of_ascii c in
  if ((48 <=? n) && (n <=? 57))%nat then Some (Z.of_nat (n - 48)) else None.

(** One or two digits [a] [b] at the head of [s], with [a] accepted by
    [fst_ok] and [b] by [snd_ok]: the value and the rest of [s]. *)
Definition two_digits (fst_ok snd_ok : Z -> bool) (s : string)
    : list (Z * string) :=
  match s with
  | String a (String b r) =>
      match digit a, digit b with
      | Some x, Some y => if fst_ok x && snd_ok y then [(10 * x + y, r)] else []
      | _, _ => []
      end
  | _ => []
  end.

Definition one_digit (ok : Z -> bool) (s : string) : list (Z * string) :=
  match s with
  | String a r =>
      match digit a with
      | Some x => if ok x then [(x, r)] else []
      | None => []
      end
  | _ => []
  end.

Definition between (lo hi x : Z) : bool := (lo <=? x) && (x <=? hi).

(** The ways the directive [%m] can match at the head of [s], in the
    order of its pattern [1[0-2]|0[1-9]|[1-9]]. *)
Definition match_m (s : string) : list (Z * string) :=
  two_digits (Z.eqb 1) (between 0 2) s
  ++ two_digits (Z.eqb 0) (between 1 9) s
  ++ one_digit (between 1 9) s.

(** [%d]: [3[0-1]|[1-2]\d|0[1-9]|[1-9]| [1-9]]. *)
Definition match_d (s : string) : list (Z * string) :=
  two_digits (Z.eqb 3) (between 0 1) s
  ++ two_digits (between 1 2) (between 0 9) s
  ++ two_digits (Z.eqb 0) (between 1 9) s
  ++ one_digit (between 1 9) s
  ++ match s with
     | String " " r => one_digit (between 1 9) r
     | _ => []
     end.

(** [%y]: two digits. *)
Definition match_y (s : string) : list (Z * string) :=
  two_digits (between 0 9) (between 0 9) s.

Definition match_slash (s : string) : list string :=
  match s with
  | String "/" r => [r]
  | _ => []
  end.

(** [datetime.strptime(s, "%m/%d/%y")] on a string: the ordinal of the
    day it denotes (the time of day is midnight), or [None] for
    [ValueError].  The pattern must match at the head of [s], nothing may
    remain after the match, a two-digit year up to 68 lies in 2000-2068
    and one from 69 in 1969-1999, and the day must exist. *)
Definition strptime_mdy (s : string) : option Z :=
  let found :=
    flat_map (fun '(m, r1) =>
    flat_map (fun r2 =>
    flat_map (fun '(d, r3) =>
    flat_map (fun r4 =>
    map (fun '(y, r5) => (m, d, y, r5)) (match_y r4))
      (match_slash r3)) (match_d r2)) (match_slash r1)) (match_m s) in
  match found with
  | (m, d, y, rest) :: _ =>
      match rest with
      | EmptyString => ymd2ord (if y <=? 68 then y + 2000 else y + 1900) m d
      | _ => None
      end
  | [] => None
  end.

(** [datetime.strptime(v, "%m/%d/%y")]: a value that is not a string
    raises [TypeError], which [except ValueError] does not catch. *)
Definition strptime (v : json) : res (option datetime) :=
  match v with
  | JStr s =>
      Ok (match strptime_mdy s with
          | Some d => Some (mkDatetime d 0)
          | None => None
          end)
  | _ => Raise TypeError
  end.

(** *** credit_card_search *)

(** The recency filter: the loop that fills [filtered_cards]. *)
Fixpoint filter_recent (cutoff_date : datetime) (cards : list json)
    : res (list json) :=
  match cards with
  | [] => Ok []
  | card :: rest =>
      last_updated <- get_opt card "last_updated" ;;
      if truthy last_updated then
        parsed <- strptime last_updated ;;
        kept <- filter_recent cutoff_date rest ;;
        match parsed with
        | Some card_date =>
            if datetime_ge card_date cutoff_date
            then Ok (card :: kept) else Ok kept
        | None => Ok kept
        end
      else filter_recent cutoff_date rest
  end.

(** A match reason; the text is a rendering of it. *)
Inductive reason : Type :=
| CardNameMatch
| IssuerMatch
| RewardsCurrencyMatch
| Category (category : json)
| Credit (type : json)
| Lounge (type : json)
| CardTypeMatch.

(** The running [score] and [match_reasons] of one card. *)
Definition tally : Type := (Z * list reason)%type.

(** [if query_lower in card.get(field, "").lower(): score += points;
     match_reasons.append(why)]. *)
Definition score_field (query_lower : string) (card : json) (field : string)
    (points : Z) (why : reason) (t : tally) : res tally :=
  v <- get card field (JStr "") ;;
  l <- lower_of v ;;
  if contains query_lower l
  then Ok (fst t + points, snd t ++ [why])
  else Ok t.

(** [for item in items: if query_lower in item.get(field, "").lower():
       score += 2; match_reasons.append(f"...: {item.get(field)}")]. *)
Fixpoint score_items (query_lower : string) (field : string)
    (why : json -> reason) (items : list json) (t : tally) : res tally :=
  match items with
  | [] => Ok t
  | item :: rest =>
      v <- get item field (JStr "") ;;
      l <- lower_of v ;;
      shown <- get_opt item field ;;
      score_items query_lower field why rest
        (if contains query_lower l
         then (fst t + 2, snd t ++ [why shown])
         else t)
  end.

(** The body of the scoring loop for one card. *)
Definition score_card (query_lower : string) (card : json) : res tally :=
  t <- score_field query_lower card "card_name" 10 CardNameMatch (0, []) ;;
  t <- score_field query_lower card "issuer" 5 IssuerMatch t ;;
  t <- score_field query_lower card "rewards_currency" 3 RewardsCurrencyMatch t ;;
  multipliers <- get card "reward_multipliers" (JList []) ;;
  multipliers <- iter multipliers ;;
  t <- score_items query_lower "category" Category multipliers t ;;
  benefits <- get card "benefits" (JDict []) ;;
  credits <- get benefits "credits" (JList []) ;;
  credits <- iter credits ;;
  t <- score_items query_lower "type" Credit credits t ;;
  lounge <- get benefits "lounge" (JList []) ;;
  lounge <- iter lounge ;;
  t <- score_items query_lower "type" Lounge lounge t ;;
  score_field query_lower card "card_type" 3 CardTypeMatch t.

(** One entry of [search_results]. *)
Record search_match : Type := mkMatch {
  sm_card_name : json;
  sm_issuer : json;
  sm_rewards_currency : json;
  sm_annual_fee : json;
  sm_card_type : json;
  sm_score : Z;
  sm_match_reasons : list reason
}.

Definition summarize (card : json) (t : tally) : res search_match :=
  card_name <- get_opt card "card_name" ;;
  issuer <- get_opt card "issuer" ;;
  rewards_currency <- get_opt card "rewards_currency" ;;
  annual_fee <- get_opt card "annual_fee" ;;
  card_type <- get_opt card "card_type" ;;
  Ok (mkMatch card_name issuer rewards_currency annual_fee card_type
        (fst t) (firstn 3 (snd t))).

(** The scoring loop: the list [matches] before it is sorted. *)
Fixpoint collect_matches (query_lower : string) (cards : list json)
    : res (list search_match) :=
  match cards with
  | [] => Ok []
  | card :: rest =>
      t <- score_card query_lower card ;;
      if 0 <? fst t then
        m <- summarize card t ;;
        ms <- collect_matches query_lower rest ;;
        Ok (m :: ms)
      else collect_matches query_lower rest
  end.

Definition score_lt (a b : search_match) : bool := sm_score a <? sm_score b.

Definition positive_int (v : json) : option Z :=
  match int_val v with
  | Some n => if n <? 1 then None else Some n
  | None => None
  end.

(** [credit_card_search(query, max_results, recently_updated)] over the
    catalog [cards] that [get_credit_cards] loads, at the time [now]. *)
Definition credit_card_search (cards : list json) (now : datetime)
    (query : string) (max_results recently_updated : json)
    : tool_result (list search_match) :=
  try_except (
    if String.eqb query "" then
      Ok (Invalid "Invalid query: must be a non-empty string")
    else if 500 <? Z.of_nat (String.length query) then
      Ok (Invalid "Query too long (max 500 characters)")
    else
      match positive_int max_results with
      | None => Ok (Invalid "max_results must be a positive integer")
      | Some max_results =>
          let max_results := if 50 <? max_results then 50 else max_results in
          let search (cards : list json) : res (tool_result (list search_match)) :=
            matches <- collect_matches (lower query) cards ;;
            let matches := sort_desc score_lt matches in
            Ok (Done (firstn (Z.to_nat max_results) matches)) in
          match recently_updated with
          | JNull => search cards
          | _ =>
              match positive_int recently_updated with
              | None => Ok (Invalid "recently_updated must be a positive integer")
              | Some days =>
                  cutoff_date <- minus_days now days ;;
                  filtered_cards <- filter_recent cutoff_date cards ;;
                  search filtered_cards
              end
          end
      end).

(** *** lookup_transfer_partners *)

(** The partner table: program name to the value holding its edges. *)
Definition partner_table : Type := list (string * json).

(** The merged valuations of [get_user_valuations], a [dict[str, float]]. *)
Definition valuation_table : Type := list (string * num).

Fixpoint valuation_lookup (valuations : valuation_table) (k : string)
    : option num :=
  match valuations with
  | [] => None
  | (k', v) :: r => if String.eqb k' k then Some v else valuation_lookup r k
  end.

(** [s.lower().replace(" ", "_").replace("-", "_")]. *)
Definition normalize_key (lowered : string) : string :=
  replace "-" "_" (replace " " "_" lowered).

(** [valuations.get(key, 1.0)]. *)
Definition valuation_of (valuations : valuation_table) (key : string) : num :=
  match valuation_lookup valuations key with
  | Some v => v
  | None => PFloat 1
  end.

(** One entry of [dest_programs].  The [summary] text is a rendering of
    [ratio] and [valuation]. *)
Record partner_info : Type := mkPartner {
  pi_loyalty_program : json;
  pi_best : json;
  pi_ratio : json;
  pi_notes : json;
  pi_valuation : num;
  pi_bonus : option json;
  pi_bonus_expiration : option json
}.

(** One entry of [source_programs].  [si_source_val] is the valuation
    that its [summary] text shows. *)
Record source_info : Type := mkSource {
  si_loyalty_program : string;
  si_ratio : json;
  si_best : json;
  si_notes : json;
  si_source_val : num;
  si_bonus : option json;
  si_bonus_expiration : option json
}.

(** [if bonus: info["bonus"] = bonus; bonus_exp = partner.get("bonus_expiration");
     if bonus_exp: info["bonus_expiration"] = bonus_exp]: the two optional
    fields of an entry. *)
Definition bonus_fields (partner bonus : json) : res (option json * option json) :=
  if truthy bonus then
    bonus_exp <- get_opt partner "bonus_expiration" ;;
    Ok (Some bonus, if truthy bonus_exp then Some bonus_exp else None)
  else Ok (None, None).

(** The body of the loop over the edges of the source program. *)
Definition dest_info (valuations : valuation_table) (partner : json)
    : res partner_info :=
  loyalty_program <- get partner "Loyalty Program" (JStr "") ;;
  ratio <- get partner "Ratio" (JNum (PFloat 1)) ;;
  best <- get partner "Best" (JBool false) ;;
  notes <- get partner "Notes" (JStr "") ;;
  bonus <- get partner "Bonus" (JStr "") ;;
  lowered <- lower_of loyalty_program ;;
  let valuation := valuation_of valuations (normalize_key lowered) in
  bf <- bonus_fields partner bonus ;;
  Ok (mkPartner loyalty_program best ratio notes valuation (fst bf) (snd bf)).

Fixpoint dest_infos (valuations : valuation_table) (partners : list json)
    : res (list partner_info) :=
  match partners with
  | [] => Ok []
  | partner :: rest =>
      info <- dest_info valuations partner ;;
      infos <- dest_infos valuations rest ;;
      Ok (info :: infos)
  end.

Definition valuation_lt (a b : partner_info) : bool :=
  negb (Qle_bool (num_val (pi_valuation b)) (num_val (pi_valuation a))).

(** The loop of the "from" direction: the first program whose name
    contains the query, with its edges ranked; [None] when the loop ends
    without returning. *)
Fixpoint from_program (valuations : valuation_table)
    (program_name_lower : string) (transfer_data : partner_table)
    : res (option (string * list partner_info)) :=
  match transfer_data with
  | [] => Ok None
  | (prog_key, partners) :: rest =>
      if contains program_name_lower (lower prog_key) then
        partners <- iter partners ;;
        result_partners <- dest_infos valuations partners ;;
        Ok (Some (prog_key, sort_desc valuation_lt result_partners))
      else from_program valuations program_name_lower rest
  end.

(** The inner loop of the "to" direction, over the edges of [prog_key]. *)
Fixpoint source_infos (valuations : valuation_table)
    (program_name_lower prog_key : string) (partners : list json)
    : res (list source_info) :=
  match partners with
  | [] => Ok []
  | partner :: rest =>
      loyalty_program <- get partner "Loyalty Program" (JStr "") ;;
      lowered <- lower_of loyalty_program ;;
      if contains program_name_lower lowered then
        ratio <- get partner "Ratio" (JNum (PFloat 1)) ;;
        best <- get partner "Best" (JBool false) ;;
        notes <- get partner "Notes" (JStr "") ;;
        bonus <- get partner "Bonus" (JStr "") ;;
        let source_val :=
          valuation_of valuations (normalize_key (lower prog_key)) in
        bf <- bonus_fields partner bonus ;;
        infos <- source_infos valuations program_name_lower prog_key rest ;;
        Ok (mkSource prog_key ratio best notes source_val (fst bf) (snd bf)
              :: infos)
      else source_infos valuations program_name_lower prog_key rest
  end.

(** The outer loop of the "to" direction: the list [source_programs]. *)
Fixpoint to_program (valuations : valuation_table)
    (program_name_lower : string) (transfer_data : partner_table)
    : res (list source_info) :=
  match transfer_data with
  | [] => Ok []
  | (prog_key, partners) :: rest =>
      partners <- iter partners ;;
      here <- source_infos valuations program_name_lower prog_key partners ;;
      later <- to_program valuations program_name_lower rest ;;
      Ok (here ++ later)
  end.

Inductive lookup_result : Type :=
| FromProgram (source_program : string) (dest_programs : list partner_info)
| ToProgram (dest_program : string) (valuation : num)
    (source_programs : list source_info)
| NoneFound (program_name : string).

(** [lookup_transfer_partners(program_name, direction)] over the partner
    table and the valuations that the storage module loads. *)
Definition lookup_transfer_partners (transfer_data : partner_table)
    (valuations : valuation_table) (program_name direction : string)
    : tool_result lookup_result :=
  try_except (
    if String.eqb program_name "" then
      Ok (Invalid "Invalid program name: must be a non-empty string")
    else if 200 <? Z.of_nat (String.length program_name) then
      Ok (Invalid "Program name too long (max 200 characters)")
    else if negb (mem direction ["from"; "to"]) then
      Ok (Invalid "Invalid direction: must be 'from' or 'to'")
    else
      let program_name_lower := lower program_name in
      if String.eqb direction "from" then
        found <- from_program valuations program_name_lower transfer_data ;;
        match found with
        | Some (prog_key, result_partners) =>
            Ok (Done (FromProgram prog_key result_partners))
        | None => Ok (Done (NoneFound program_name))
        end
      else
        source_programs <-
          to_program valuations program_name_lower transfer_data ;;
        match source_programs with
        | [] => Ok (Done (NoneFound program_name))
        | _ =>
            let dest_valuation :=
              valuation_of valuations (normalize_key (lower program_name)) in
            Ok (Done (ToProgram program_name dest_valuation source_programs))
        end).

(** *** get_transfer_bonuses *)

(** One entry of [bonuses].  The texts [bonus_percentage], [normal_ratio]
    and [effective_ratio] are renderings of [bonus_multiplier] and
    [ratio]. *)
Record bonus_info : Type := mkBonus {
  bi_from_program : string;
  bi_to_program : json;
  bi_bonus_multiplier : json;
  bi_ratio : json;
  bi_notes : json;
  bi_bonus_expiration : option json
}.

(** [bonus == text]. *)
Definition is_text (bonus : json) (text : string) : bool :=
  match bonus with
  | JStr s => String.eqb s text
  | _ => false
  end.

(** [bonus <= 1.0] on a number. *)
Definition at_most_one (bonus : json) : bool :=
  match number_val bonus with
  | Some q => Qle_bool q 1
  | None => false
  end.

(** [bonus * ratio] for a number [bonus]; the product only goes into the
    [effective_ratio] text, so what matters here is whether it raises:
    a number times a number is a number, an [int] repeats a string or a
    list, everything else is a [TypeError]. *)
Definition multiply (bonus ratio : json) : res unit :=
  match ratio with
  | JBool _ | JNum _ => Ok tt
  | JStr _ | JList _ => if is_int bonus then Ok tt else Raise TypeError
  | JNull | JDict _ => Raise TypeError
  end.

(** The inner loop, over the edges of [source_program]. *)
Fixpoint program_bonuses (source_program : string) (partners : list json)
    : res (list bonus_info) :=
  match partners with
  | [] => Ok []
  | partner :: rest =>
      bonus <- get_opt partner "Bonus" ;;
      if match bonus with JNull => true | _ => false end
         || is_text bonus "None" || is_text bonus "Varies"
      then program_bonuses source_program rest
      else if negb (is_number bonus)
      then program_bonuses source_program rest
      else if at_most_one bonus
      then program_bonuses source_program rest
      else
        loyalty_program <- get partner "Loyalty Program" (JStr "") ;;
        ratio <- get partner "Ratio" (JNum (PFloat 1)) ;;
        notes <- get partner "Notes" (JStr "") ;;
        _ <- multiply bonus ratio ;;
        bonus_exp <- get_opt partner "bonus_expiration" ;;
        infos <- program_bonuses source_program rest ;;
        Ok (mkBonus source_program loyalty_program bonus ratio notes
              (if truthy bonus_exp then Some bonus_exp else None)
              :: infos)
  end.

(** The outer loop: the list [bonuses] before it is sorted. *)
Fixpoint all_bonuses (from_program_lower : string)
    (transfer_data : partner_table) : res (list bonus_info) :=
  match transfer_data with
  | [] => Ok []
  | (source_program, partners) :: rest =>
      if negb (String.eqb from_program_lower "")
         && negb (contains from_program_lower (lower source_program))
      then all_bonuses from_program_lower rest
      else
        partners <- iter partners ;;
        here <- program_bonuses source_program partners ;;
        later <- all_bonuses from_program_lower rest ;;
        Ok (here ++ later)
  end.

(** The sort key [x["bonus_multiplier"]]. *)
Definition multiplier (b : bonus_info) : Q :=
  match number_val (bi_bonus_multiplier b) with
  | Some q => q
  | None => 0%Q
  end.

Definition multiplier_lt (a b : bonus_info) : bool :=
  negb (Qle_bool (multiplier b) (multiplier a)).

(** [get_transfer_bonuses(from_program)] over the partner table. *)
Definition get_transfer_bonuses (transfer_data : partner_table)
    (from_program : string) : tool_result (list bonus_info) :=
  try_except (
    if negb (String.eqb from_program "")
       && (200 <? Z.of_nat (String.length from_program))
    then Ok (Invalid "Program name too long (max 200 characters)")
    else
      let from_program_lower :=
        if String.eqb from_program "" then "" else lower from_program in
      bonuses <- all_bonuses from_program_lower transfer_data ;;
      Ok (Done (sort_desc multiplier_lt bonuses))).

(** *** benefits_search *)

Section Benefits.

(** [repr(v)] for a value that is not a string: the text Python shows for
    a dict, a list, a number, [None], [True] or [False]. *)
Variable repr : json -> string.

(** [str(v)], which is also how an f-string shows [v]. *)
Definition str (v : json) : string :=
  match v with
  | JStr s => s
  | _ => repr v
  end.

(** [for item in items: if query_lower in item.get(field, "").lower():
       matched = True; break]. *)
Fixpoint any_field (query_lower field : string) (items : list json)
    : res bool :=
  match items with
  | [] => Ok false
  | item :: rest =>
      v <- get item field (JStr "") ;;
      l <- lower_of v ;;
      if contains query_lower l then Ok true
      else any_field query_lower field rest
  end.

(** [for other in items: if query_lower in other.lower(): ...]. *)
Fixpoint any_text (query_lower : string) (items : list json) : res bool :=
  match items with
  | [] => Ok false
  | other :: rest =>
      l <- lower_of other ;;
      if contains query_lower l then Ok true
      else any_text query_lower rest
  end.

(** The loop over the protections of one category. *)
Fixpoint any_protection (query_lower : string) (prots : list json)
    : res bool :=
  match prots with
  | [] => Ok false
  | prot :: rest =>
      t <- get prot "type" (JStr "") ;;
      prot_type <- lower_of t ;;
      d <- get prot "description" (JStr "") ;;
      prot_desc <- lower_of d ;;
      if contains query_lower prot_type || contains query_lower prot_desc
      then Ok true
      else any_protection query_lower rest
  end.

(** The loop over the protection categories. *)
Fixpoint any_protection_category (query_lower : string) (protections : json)
    (categories : list string) : res bool :=
  match categories with
  | [] => Ok false
  | prot_category :: rest =>
      prots <- get protections prot_category (JList []) ;;
      prots <- iter prots ;;
      hit <- any_protection query_lower prots ;;
      if hit then Ok true
      else any_protection_category query_lower protections rest
  end.

(** [category_keywords.get(word)]. *)
Definition category_keywords (word : string) : option string :=
  if String.eqb word "hotel" then Some "hotel_elite_status"
  else if String.eqb word "airline" then Some "airline_elite_status"
  else if String.eqb word "rental" then Some "rental_car_elite_status"
  else if String.eqb word "car" then Some "rental_car_elite_status"
  else None.

(** The loop over [query_words], which fills [target_categories] and
    [remaining_words]. *)
Fixpoint classify (query_words : list string) : list string * list string :=
  match query_words with
  | [] => ([], [])
  | word :: rest =>
      let (target_categories, remaining_words) := classify rest in
      match category_keywords word with
      | Some category => (category :: target_categories, remaining_words)
      | None =>
          if negb (mem word ["elite"; "status"])
          then (target_categories, word :: remaining_words)
          else (target_categories, remaining_words)
      end
  end.

(** [status.get(category) and len(status.get(category, [])) > 0]. *)
Definition has_entries (status : json) (category : string) : res bool :=
  v <- get_opt status category ;;
  if truthy v then
    w <- get status category (JList []) ;;
    n <- len w ;;
    Ok (0 <? n)
  else Ok false.

(** The loop over [target_categories]. *)
Fixpoint any_target (status : json) (target_categories : list string)
    : res bool :=
  match target_categories with
  | [] => Ok false
  | category :: rest =>
      present <- has_entries status category ;;
      if present then Ok true else any_target status rest
  end.

Definition status_categories : list string :=
  ["hotel_elite_status"; "airline_elite_status"; "rental_car_elite_status";
   "other_elite_status"].

(** The keyword loop over the entries of one status category. *)
Fixpoint any_keyword (remaining_words : list string) (stats : list json)
    : res bool :=
  match stats with
  | [] => Ok false
  | stat :: rest =>
      program <- get stat "program" (JStr "") ;;
      tier <- get stat "tier" (JStr "") ;;
      description <- get stat "description" (JStr "") ;;
      let stat_text :=
        lower (str program ++ " " ++ str tier ++ " " ++ str description)%string in
      if existsb (fun word => contains word stat_text) remaining_words
      then Ok true
      else any_keyword remaining_words rest
  end.

(** The loop of a query that says "status" or "elite" but names no
    category. *)
Fixpoint any_status (status : json) (remaining_words : list string)
    (categories : list string) : res bool :=
  match categories with
  | [] => Ok false
  | status_category :: rest =>
      present <- has_entries status status_category ;;
      if present then
        match remaining_words with
        | [] => Ok true
        | _ =>
            stats <- get status status_category (JList []) ;;
            stats <- iter stats ;;
            hit <- any_keyword remaining_words stats ;;
            if hit then Ok true else any_status status remaining_words rest
        end
      else any_status status remaining_words rest
  end.

(** [for stat in stats: if query_lower in str(stat).lower(): ...]. *)
Fixpoint any_stringified (query_lower : string) (stats : list json) : bool :=
  match stats with
  | [] => false
  | stat :: rest =>
      contains query_lower (lower (str stat))
      || any_stringified query_lower rest
  end.

(** The fallback loop of a query without status vocabulary. *)
Fixpoint any_fallback (query_lower : string) (status : json)
    (categories : list string) : res bool :=
  match categories with
  | [] => Ok false
  | status_category :: rest =>
      stats <- get status status_category (JList []) ;;
      stats <- iter stats ;;
      if any_stringified query_lower stats then Ok true
      else any_fallback query_lower status rest
  end.

(** The elite-status stage. *)
Definition status_matches (query_lower : string) (benefits : json)
    : res bool :=
  status <- get benefits "status" (JDict []) ;;
  let query_words := split query_lower in
  let (target_categories, remaining_words) := classify query_words in
  match target_categories with
  | _ :: _ => any_target status target_categories
  | [] =>
      if existsb (fun word => mem word query_words) ["status"; "elite"]
      then any_status status remaining_words status_categories
      else any_fallback query_lower status status_categories
  end.

(** The stages before the elite-status stage: credits, lounge access,
    other benefits, protections; each runs only if none before it hit. *)
Definition earlier_matches (query_lower : string) (benefits : json)
    : res bool :=
  credits <- get benefits "credits" (JList []) ;;
  credits <- iter credits ;;
  matched <- any_field query_lower "type" credits ;;
  if matched then Ok true else
  lounge <- get benefits "lounge" (JList []) ;;
  lounge <- iter lounge ;;
  matched <- any_field query_lower "type" lounge ;;
  if matched then Ok true else
  other <- get benefits "other" (JList []) ;;
  other <- iter other ;;
  matched <- any_text query_lower other ;;
  if matched then Ok true else
  protections <- get benefits "protections" (JDict []) ;;
  any_protection_category query_lower protections
    ["purchase_protections"; "travel_protections"; "insurance_protections"].

(** The value of [matched] at the end of the loop body for [card]. *)
Definition card_matches (query_lower : string) (card : json) : res bool :=
  benefits <- get card "benefits" (JDict []) ;;
  matched <- earlier_matches query_lower benefits ;;
  if matched then Ok true else status_matches query_lower benefits.

(** One entry of [matches]. *)
Record benefit_match : Type := mkBenefit {
  bm_card_name : json;
  bm_issuer : json;
  bm_rewards_currency : json;
  bm_annual_fee : json;
  bm_foreign_transaction_fee : json;
  bm_fm_mini_review : json;
  bm_benefits : json;
  bm_card_type : json;
  bm_last_updated_utc : json
}.

Definition describe (card : json) : res benefit_match :=
  benefits <- get card "benefits" (JDict []) ;;
  card_name <- get_opt card "card_name" ;;
  issuer <- get_opt card "issuer" ;;
  rewards_currency <- get_opt card "rewards_currency" ;;
  annual_fee <- get_opt card "annual_fee" ;;
  foreign_transaction_fee <- get_opt card "foreign_transaction_fee" ;;
  fm_mini_review <- get_opt card "fm_mini_review" ;;
  card_type <- get_opt card "card_type" ;;
  last_updated_utc <- get_opt card "last_updated_utc" ;;
  Ok (mkBenefit card_name issuer rewards_currency annual_fee
        foreign_transaction_fee fm_mini_review benefits card_type
        last_updated_utc).

(** The loop over the catalog. *)
Fixpoint benefit_matches (query_lower : string) (cards : list json)
    : res (list benefit_match) :=
  match cards with
  | [] => Ok []
  | card :: rest =>
      matched <- card_matches query_lower card ;;
      if matched then
        m <- describe card ;;
        ms <- benefit_matches query_lower rest ;;
        Ok (m :: ms)
      else benefit_matches query_lower rest
  end.

(** [benefits_search(query)] over the catalog [cards]. *)
Definition benefits_search (cards : list json) (query : string)
    : tool_result (list benefit_match) :=
  try_except (
    if String.eqb query "" then
      Ok (Invalid "Invalid query: must be a non-empty string")
    else if 500 <? Z.of_nat (String.length query) then
      Ok (Invalid "Query too long (max 500 characters)")
    else
      matches <- benefit_matches (lower query) cards ;;
      Ok (Done matches)).

End Benefits.

(** A rendering for the examples below.  It is [repr] on the values built
    from [None], booleans, integers, floats with an integral value and
    strings without quotes or escapes. *)
Fixpoint show (v : json) : string :=
  match v with
  | JNull => "None"
  | JBool b => if b then "True" else "False"
  | JNum (PInt z) => NilEmpty.string_of_int (Z.to_int z)
  | JNum (PFloat q) => NilEmpty.string_of_int (Z.to_int (Qnum q / Z.pos (Qden q))) ++ ".0"
  | JStr s => "'" ++ s ++ "'"
  | JList l => "[" ++ String.concat ", " (map show l) ++ "]"
  | JDict d =>
      "{" ++ String.concat ", "
               (map (fun kv => "'" ++ fst kv ++ "': " ++ show (snd kv)) d)
          ++ "}"
  end%string.

End Tools.

(** ** data_storage.py: valuations, wallet and merchant credits

    The file [user.json] is the state of the functions below: [None]
    when the file does not exist, otherwise the document it holds.  A
    function that saves returns the new contents of the file; a function
    that raises leaves the file as it was, since the write is the last
    thing each of them does.  The clock readings are arguments, one for
    each place that reads the clock. *)

Module Store.

Import DataStorage.

(** A dict with string keys, in insertion order. *)
Definition dict : Type := list (string * json).

(** [d[k] = v] on a dict: an existing key keeps its place. *)
Fixpoint assign (d : dict) (k : string) (v : json) : dict :=
  match d with
  | [] => [(k, v)]
  | (k', v') :: r =>
      if String.eqb k' k then (k', v) :: r else (k', v') :: assign r k v
  end.

(** [del d[k]] on a dict that has the key. *)
Fixpoint discard (d : dict) (k : string) : dict :=
  match d with
  | [] => []
  | (k', v') :: r => if String.eqb k' k then r else (k', v') :: discard r k
  end.

(** [x[k] = v] for a string [k]: only a dict takes it. *)
Definition set_key (x : json) (k : string) (v : json) : res json :=
  match x with
  | JDict d => Ok (JDict (assign d k v))
  | _ => Raise TypeError
  end.

(** [del x[k]] for a string [k], when [k in x] holds. *)
Definition del_key (x : json) (k : string) : res json :=
  match x with
  | JDict d => Ok (JDict (discard d k))
  | _ => Raise TypeError
  end.

(** [k in x] for a string [k]: a key of a dict, an element of a list, a
    part of a string. *)
Definition has_key (x : json) (k : string) : res bool :=
  match x with
  | JDict d => Ok (match lookup d k with Some _ => true | None => false end)
  | JList l =>
      Ok (existsb (fun e => match e with
                           | JStr s => String.eqb s k
                           | _ => false
                           end) l)
  | JStr s => Ok (contains k s)
  | _ => Raise TypeError
  end.

(** What [_load_json_file] returns for the file: [None] when the file is
    missing, and also when it holds [null]. *)
Definition loaded (file : option json) : option json :=
  match file with
  | Some JNull => None
  | _ => file
  end.

(** [get_default_valuations], over the contents of [valuations.json]. *)
Fixpoint collect_valuations (raw : dict) (valuations : dict) : dict :=
  match raw with
  | [] => valuations
  | (program_key, val_data) :: rest =>
      collect_valuations rest
        (match val_data with
         | JDict d =>
             assign valuations program_key
               (match lookup d "value" with
                | Some v => v
                | None => JNum (PInt 0)
                end)
         | JBool _ | JNum _ => assign valuations program_key val_data
         | _ => valuations
         end)
  end.

Definition get_default_valuations (file : option json) : res dict :=
  match loaded file with
  | None => Ok []
  | Some data =>
      raw_valuations <- get data "valuations" (JDict []) ;;
      match raw_valuations with
      | JDict raw => Ok (collect_valuations raw [])
      | _ => Raise AttributeError
      end
  end.

(** [merged = default_vals.copy(); merged.update(custom_vals)], the merge
    of [get_user_valuations], for custom valuations that are a dict. *)
Definition merge_valuations (default_vals custom_vals : dict) : dict :=
  fold_left (fun merged kv => assign merged (fst kv) (snd kv))
    custom_vals default_vals.

(** [get_user_data]: the document of the file, or an empty structure. *)
Definition get_user_data (file : option json) (now : string) : json :=
  match loaded file with
  | Some data => data
  | None =>
      JDict [("wallet", JList []); ("custom_valuations", JDict []);
             ("credits", JDict []); ("last_updated", JStr now)]
  end.

(** [save_user_data]: the new contents of the file. *)
Definition save_user_data (data : json) (saved_at : string)
    : res (option json) :=
  stamped <- set_key data "last_updated" (JStr saved_at) ;;
  Ok (Some stamped).

(** [get_user_credits]. *)
Definition get_user_credits (file : option json) (now : string) : res json :=
  get (get_user_data file now) "credits" (JDict []).

Section Wallet.

Variable WRatio : string -> string -> Q.
Variable FUZZY_MATCH_THRESHOLD : Z.

(** The catalog of [get_credit_cards]. *)
Variable cards : list json.

(** [get_credit_card_by_name(v)] for a value [v]: with a catalog at
    hand, the first thing it does is [v.lower()]. *)
Definition resolve (v : json) : res (option json) :=
  match cards with
  | [] => Ok None
  | _ =>
      match v with
      | JStr s => get_credit_card_by_name WRatio FUZZY_MATCH_THRESHOLD cards s
      | _ => Raise AttributeError
      end
  end.

(** The loop of [get_user_wallet]. *)
Fixpoint enrich (wallet_cards : list json) : res (list json) :=
  match wallet_cards with
  | [] => Ok []
  | wallet_entry :: rest =>
      card_name <- get wallet_entry "card_name" (JStr "") ;;
      card_data <- resolve card_name ;;
      match card_data with
      | Some card_data =>
          if truthy card_data then
            note <- get_opt wallet_entry "note" ;;
            enriched_card <-
              (if truthy note then set_key card_data "user_note" note
               else Ok card_data) ;;
            enriched_wallet <- enrich rest ;;
            Ok (enriched_card :: enriched_wallet)
          else enrich rest
      | None => enrich rest
      end
  end.

(** [get_user_wallet]. *)
Definition get_user_wallet (file : option json) (now : string)
    : res (list json) :=
  wallet_cards <- get (get_user_data file now) "wallet" (JList []) ;;
  wallet_cards <- iter wallet_cards ;;
  enrich wallet_cards.



(** [card[k]] on a dict. *)
Definition item (card : json) (k : string) : res json :=
  match card with
  | JDict d =>
      match lookup d k with
      | Some v => Ok v
      | None => Raise KeyError
      end
  | _ => Raise TypeError
  end.


End Wallet.




(** [add_merchant_credit]. *)
Definition add_merchant_credit (file : option json)
    (now added_at saved_at : string) (merchant : string) : res (option json) :=
  let user_data := get_user_data file now in
  credits <- get user_data "credits" (JDict []) ;;
  credits <- set_key credits merchant (JDict [("added_at", JStr added_at)]) ;;
  user_data <- set_key user_data "credits" credits ;;
  save_user_data user_data saved_at.

(** [remove_merchant_credit]. *)
Definition remove_merchant_credit (file : option json) (now saved_at : string)
    (merchant : string) : res (bool * option json) :=
  let user_data := get_user_data file now in
  credits <- get user_data "credits" (JDict []) ;;
  present <- has_key credits merchant ;;
  if present then
    credits <- del_key credits merchant ;;
    user_data <- set_key user_data "credits" credits ;;
    saved <- save_user_data user_data saved_at ;;
    Ok (true, saved)
  else Ok (false, file).

End Store.

(** ** tools.py: get_credit_card_info, get_top_card_offers, get_valuations *)

Module MoreTools.

Import DataStorage Tools Store.

(** *** get_credit_card_info *)

(** The texts that a card name must not contain: "../", "..\\", NUL,
    line feed and carriage return. *)
Definition forbidden : list string :=
  ["../"; String "." (String "." (String "\" EmptyString));
   String (ascii_of_nat 0) EmptyString;
   String (ascii_of_nat 10) EmptyString;
   String (ascii_of_nat 13) EmptyString].

Inductive card_info : Type :=
| CardNotFound (card_name : string)
| Card (card : json).

(** [get_credit_card_info(card_name)] over the catalog [cards]. *)
Definition get_credit_card_info (WRatio : string -> string -> Q)
    (FUZZY_MATCH_THRESHOLD : Z) (cards : list json) (card_name : string)
    : tool_result card_info :=
  try_except (
    if String.eqb card_name "" then
      Ok (Invalid "Invalid card name: must be a non-empty string")
    else if 200 <? Z.of_nat (String.length card_name) then
      Ok (Invalid "Card name too long (max 200 characters)")
    else if existsb (fun char => contains char card_name) forbidden then
      Ok (Invalid "Invalid characters in card name")
    else
      card <- get_credit_card_by_name WRatio FUZZY_MATCH_THRESHOLD cards
                card_name ;;
      match card with
      | Some card =>
          if truthy card then Ok (Done (Card card))
          else Ok (Done (CardNotFound card_name))
      | None => Ok (Done (CardNotFound card_name))
      end).

(** *** get_top_card_offers *)

Section Offers.

(** [float(s)] for a string: the number it spells, or [None] for
    [ValueError].  Floats are rationals here, so the texts that spell a
    NaN or an infinity, and integers too large for a float, are outside
    this model. *)
Variable float_of_string : string -> option Q.

(** [float(v)] inside [try: ... except (ValueError, TypeError)]: [None]
    when it raises. *)
Definition to_float (v : json) : option Q :=
  match v with
  | JBool _ | JNum _ => number_val v
  | JStr s => float_of_string s
  | _ => None
  end.

(** One entry of [offers]. *)
Record offer : Type := mkOffer {
  of_card_name : json;
  of_issuer : json;
  of_first_year_value_estimate : Q;
  of_sign_up_bonus : json;
  of_annual_fee : json;
  of_application_link : json;
  of_rewards_currency_type : json;
  of_benefits : json;
  of_fm_mini_review : json
}.

Definition make_offer (card : json) (fyve_num : Q) : res offer :=
  card_name <- get_opt card "card_name" ;;
  issuer <- get_opt card "issuer" ;;
  sign_up_bonus <- get_opt card "sign_up_bonus" ;;
  annual_fee <- get_opt card "annual_fee" ;;
  application_link <- get_opt card "application_link" ;;
  rewards_currency <- get_opt card "rewards_currency" ;;
  benefits <- get_opt card "benefits" ;;
  fm_mini_review <- get_opt card "fm_mini_review" ;;
  Ok (mkOffer card_name issuer fyve_num sign_up_bonus annual_fee
        application_link rewards_currency benefits fm_mini_review).

(** The loop over the catalog: the list [offers] before it is sorted. *)
Fixpoint collect_offers (card_type : string) (cards : list json)
    : res (list offer) :=
  match cards with
  | [] => Ok []
  | card :: rest =>
      t <- get card "card_type" (JStr "") ;;
      dataset_card_type <- lower_of t ;;
      if String.eqb card_type "business"
         && negb (String.eqb dataset_card_type "business")
      then collect_offers card_type rest
      else if String.eqb card_type "personal"
              && negb (String.eqb dataset_card_type "personal")
      then collect_offers card_type rest
      else
        fyve <- get_opt card "first_year_value_estimate" ;;
        match fyve with
        | JNull => collect_offers card_type rest
        | _ =>
            match to_float fyve with
            | None => collect_offers card_type rest
            | Some fyve_num =>
                o <- make_offer card fyve_num ;;
                offers <- collect_offers card_type rest ;;
                Ok (o :: offers)
            end
        end
  end.

Definition estimate_lt (a b : offer) : bool :=
  negb (Qle_bool (of_first_year_value_estimate b)
          (of_first_year_value_estimate a)).

(** [get_top_card_offers(n, card_type)] over the catalog [cards]. *)
Definition get_top_card_offers (cards : list json) (n : json)
    (card_type : string) : tool_result (list offer) :=
  try_except (
    match positive_int n with
    | None => Ok (Invalid "n must be a positive integer")
    | Some n =>
        let n := if 50 <? n then 50 else n in
        if negb (mem card_type ["business"; "personal"; "all"]) then
          Ok (Invalid "card_type must be 'business', 'personal', or 'all'")
        else
          offers <- collect_offers card_type cards ;;
          let offers := sort_desc estimate_lt offers in
          Ok (Done (firstn (Z.to_nat n) offers))
    end).

End Offers.

(** *** get_valuations *)

(** [d[k] = v] on a dict from strings to strings. *)
Fixpoint remember (d : list (string * string)) (k v : string)
    : list (string * string) :=
  match d with
  | [] => [(k, v)]
  | (k', v') :: r =>
      if String.eqb k' k then (k', v) :: r else (k', v') :: remember r k v
  end.

Fixpoint recall (d : list (string * string)) (k : string) : option string :=
  match d with
  | [] => None
  | (k', v) :: r => if String.eqb k' k then Some v else recall r k
  end.

(** [get_valuations_with_metadata], over the contents of
    [valuations.json]. *)
Definition get_valuations_with_metadata (file : option json) : json :=
  match loaded file with
  | Some data => data
  | None =>
      JDict [("version", JStr "1.0"); ("unit", JStr "cents_per_point");
             ("valuations", JDict [])]
  end.

(** The loop that builds [normalized_lookup] from the keys of
    [valuations]. *)
Fixpoint build_normalized (valuations_metadata : json) (keys : list string)
    (normalized_lookup : list (string * string))
    : res (list (string * string)) :=
  match keys with
  | [] => Ok normalized_lookup
  | key :: rest =>
      let normalized_lookup :=
        remember normalized_lookup (normalize_key (lower key)) key in
      all_data <- get valuations_metadata "valuations" (JDict []) ;;
      val_data <- get all_data key (JDict []) ;;
      match val_data with
      | JDict _ =>
          display_name <- get_opt val_data "display_name" ;;
          if truthy display_name then
            l <- lower_of display_name ;;
            build_normalized valuations_metadata rest
              (remember normalized_lookup (normalize_key l) key)
          else build_normalized valuations_metadata rest normalized_lookup
      | _ => build_normalized valuations_metadata rest normalized_lookup
      end
  end.

(** [valuations[k]]. *)
Definition value_at (valuations : dict) (k : string) : res json :=
  match lookup valuations k with
  | Some v => Ok v
  | None => Raise KeyError
  end.

(** The loop over [programs] that fills [filtered_valuations]. *)
Fixpoint filter_programs (valuations : dict)
    (normalized_lookup : list (string * string)) (programs : list string)
    (filtered_valuations : dict) : res dict :=
  match programs with
  | [] => Ok filtered_valuations
  | program :: rest =>
      match recall normalized_lookup (normalize_key (lower program)) with
      | Some actual_key =>
          v <- value_at valuations actual_key ;;
          filter_programs valuations normalized_lookup rest
            (assign filtered_valuations actual_key v)
      | None =>
          filter_programs valuations normalized_lookup rest
            filtered_valuations
      end
  end.

(** [get_valuations(programs)] over the merged valuations of
    [get_user_valuations] and the contents of [valuations.json], for
    [programs] that is [None] or a list of texts, as its annotation
    says. *)
Definition get_valuations (valuations : dict) (file : option json)
    (programs : option (list string)) : tool_result dict :=
  try_except (
    let valuations_metadata := get_valuations_with_metadata file in
    match programs with
    | None | Some [] => Ok (Done valuations)
    | Some programs =>
        normalized_lookup <-
          build_normalized valuations_metadata (map fst valuations) [] ;;
        filtered_valuations <-
          filter_programs valuations normalized_lookup programs [] ;;
        Ok (Done filtered_valuations)
    end).

End MoreTools.

(** ** miles.py: the checks on downloaded data *)

Module Miles.

Import Store.

(** [all(field in sample_card for field in required_fields)]. *)
Fixpoint has_all (sample_card : json) (required_fields : list string)
    : res bool :=
  match required_fields with
  | [] => Ok true
  | field :: rest =>
      present <- has_key sample_card field ;;
      if present then has_all sample_card rest else Ok false
  end.

(** [_validate_credit_cards_data]. *)
Definition _validate_credit_cards_data (data : json) : res bool :=
  match data with
  | JList [] => Ok true
  | JList (sample_card :: _) => has_all sample_card ["card_name"; "issuer"]
  | _ => Ok false
  end.

(** [_validate_transfer_partners_data]. *)
Definition _validate_transfer_partners_data (data : json) : bool :=
  match data with
  | JDict _ => true
  | _ => false
  end.

(** [_validate_valuations_data]. *)
Definition _validate_valuations_data (data : json) : bool :=
  match data with
  | JDict d =>
      match lookup d "valuations" with
      | Some (JDict []) => true
      | Some (JDict ((sample_key, sample_val) :: _)) =>
          match sample_val with
          | JDict v =>
              match lookup v "value" with
              | Some _ => true
              | None => false
              end
          | JBool _ | JNum _ => true
          | _ => false
          end
      | _ => false
      end
  | _ => false
  end.

End Miles.

(** * Specification vocabulary *)

Module Spec.

Import DataStorage Tools.

(** ** Name resolution *)

(** [card] carries the non-empty canonical name [s]. *)
Definition named (card : json) (s : string) : Prop :=
  get_opt card "card_name" = Ok (JStr s) /\ s <> "".

(** A catalog entry as the data model describes it: an object whose
    [card_name] is a string, unless it is missing or falsy. *)
Definition card_object (card : json) : Prop :=
  exists d, card = JDict d
    /\ forall v, lookup d "card_name" = Some v -> truthy v = true ->
         exists s, v = JStr s.

(** The choice with the highest score, the first one on a tie, whatever
    the cutoff: [extractOne_from] without its acceptance test. *)
Fixpoint best_from (WRatio : string -> string -> Q) (query : string)
    (result : option (json * Q)) (choices : list json)
    : res (option (json * Q)) :=
  match choices with
  | [] => Ok result
  | choice :: rest =>
      match choice with
      | JStr s =>
          let score := WRatio query s in
          match result with
          | Some (_, best) =>
              if Qle_bool score best
              then best_from WRatio query result rest
              else best_from WRatio query (Some (choice, score)) rest
          | None => best_from WRatio query (Some (choice, score)) rest
          end
      | _ => Raise TypeError
      end
  end.

(** The acceptance test of the threshold. *)
Definition accept (score_cutoff : Q) (result : option (json * Q))
    : option (json * Q) :=
  match result with
  | Some (_, score) => if Qle_bool score_cutoff score then result else None
  | None => None
  end.

(** What every entry of the lookup table satisfies: its record comes from
    the catalog and carries a truthy [card_name] equal to the key. *)
Definition entry_ok (cards : list json) (e : json * json) : Prop :=
  In (snd e) cards
  /\ exists k, get_opt (snd e) "card_name" = Ok k
       /\ truthy k = true /\ key_eqb (fst e) k = true.

(** The key of a lookup entry is a text. *)
Definition str_key (e : json * json) : Prop := exists s, fst e = JStr s.

(** ** The tools *)

(** The cards that the scoring loop of [credit_card_search] runs on: the
    whole catalog, or the outcome of the recency filter. *)
Definition eligible_cards (now : datetime) (recently_updated : json)
    (cards : list json) : res (tool_result (list json)) :=
  match recently_updated with
  | JNull => Ok (Done cards)
  | _ =>
      match positive_int recently_updated with
      | None => Ok (Invalid "recently_updated must be a positive integer")
      | Some days =>
          cutoff_date <- minus_days now days ;;
          filtered_cards <- filter_recent cutoff_date cards ;;
          Ok (Done filtered_cards)
      end
  end.

(** The ranked list of matches, before it is cut to [max_results]. *)
Definition ranked_matches (query : string) (cards : list json)
    : res (list search_match) :=
  matches <- collect_matches (lower query) cards ;;
  Ok (sort_desc score_lt matches).


Definition valid_query (query : string) : Prop :=
  query <> "" /\ Z.of_nat (String.length query) <= 500.

(** [partner.get(k, default)] as a value, for an edge that is a dict. *)
Definition field (partner : json) (k : string) (default : json) : json :=
  match get partner k default with
  | Ok v => v
  | Raise _ => default
  end.

(** The edges held under a program of the partner table. *)
Definition edges_of (partners : json) : list json :=
  match iter partners with
  | Ok l => l
  | Raise _ => []
  end.
















End Spec.

(** * Specification vocabulary for the wallet, the valuations and the
      other tools *)

Module StoreSpec.

Import DataStorage Tools Spec Store MoreTools.

(** The entries of the wallet that the file holds. *)
Definition wallet_of (file : option json) : res (list json) :=
  wallet <- get (get_user_data file "") "wallet" (JList []) ;;
  iter wallet.


(** A wallet entry as [add_card_to_wallet] writes it: an object whose
    [card_name], when present, is a string. *)
Definition wallet_entry (c : json) : Prop :=
  exists d, c = JDict d
    /\ forall v, lookup d "card_name" = Some v -> exists s, v = JStr s.

(** The key under which [set_custom_valuation] files a currency. *)
Definition valuation_key (currency : string) : string :=
  normalize_key (lower currency).



(** The record that [get_user_wallet] shows for the catalog entry [card]
    and the wallet entry [entry]: the card, with the note of the entry as
    [user_note] when the note is truthy. *)
Definition shown (card entry : json) : option json :=
  match card, get_opt entry "note" with
  | JDict d, Ok note =>
      Some (if truthy note then JDict (assign d "user_note" note) else card)
  | _, _ => None
  end.


(** Descending order of the scores. *)
Definition by_score (a b : search_match) : Prop := sm_score b <= sm_score a.


(** The entry of [offers] for the catalog entry [card] with the estimate
    [estimate]. *)
Definition offer_for (card : json) (estimate : Q) : offer :=
  mkOffer (field card "card_name" JNull) (field card "issuer" JNull) estimate
    (field card "sign_up_bonus" JNull) (field card "annual_fee" JNull)
    (field card "application_link" JNull) (field card "rewards_currency" JNull)
    (field card "benefits" JNull) (field card "fm_mini_review" JNull).



(** A card name that [get_credit_card_info] takes: not empty, at most
    200 characters, and free of the forbidden texts. *)
Definition valid_card_name (card_name : string) : Prop :=
  card_name <> ""
  /\ Z.of_nat (String.length card_name) <= 200
  /\ Forall (fun char => contains char card_name = false) forbidden.


(** What a match reason adds to the score of a card. *)
Definition weight (why : reason) : Z :=
  match why with
  | CardNameMatch => 10
  | IssuerMatch => 5
  | RewardsCurrencyMatch => 3
  | Category _ => 2
  | Credit _ => 2
  | Lounge _ => 2
  | CardTypeMatch => 3
  end.

Definition total_weight (reasons : list reason) : Z :=
  fold_right (fun why sum => weight why + sum) 0 reasons.

(** The running score of a card is the total weight of its reasons. *)
Definition accounted (t : tally) : Prop := fst t = total_weight (snd t).

(** The entry [item] has a [type] that contains the query. *)
Definition of_kind (query_lower : string) (item : json) : bool :=
  match field item "type" (JStr "") with
  | JStr s => contains query_lower (lower s)
  | _ => false
  end.

(** The card has a credit or a lounge access whose [type] contains the
    query. *)
Definition offers_benefit (query_lower : string) (card : json) : bool :=
  let benefits := field card "benefits" (JDict []) in
  existsb (of_kind query_lower)
    (edges_of (field benefits "credits" (JList [])))
  || existsb (of_kind query_lower)
       (edges_of (field benefits "lounge" (JList []))).







End StoreSpec.

(** * Sample data for the examples *)

Module Samples.

Import DataStorage Tools.

(** A stand-in for [WRatio] in the examples: 100 for equal strings up to
    case, 90 when the query occurs in the choice, 0 otherwise.  The
    theorems below hold for every scorer. *)
Definition sample_ratio (query choice : string) : Q :=
  if String.eqb (lower query) (lower choice) then 100%Q
  else if contains (lower query) (lower choice) then 90%Q
  else 0%Q.

Definition card (name issuer : string) : json :=
  JDict [("card_name", JStr name); ("issuer", JStr issuer)].

(** The catalog of the storage tests. *)
Definition catalog : list json :=
  [card "Chase Sapphire Preferred Credit Card" "Chase";
   card "The Platinum Card from American Express" "American Express";
   card "American Express Gold Card" "American Express";
   card "Capital One Venture X Rewards Credit Card" "Capital One"].



Definition dated (name issuer last_updated : string) : json :=
  JDict [("card_name", JStr name); ("issuer", JStr issuer);
         ("last_updated", JStr last_updated)].

(** Noon of 2026-11-03. *)
Definition today : datetime := mkDatetime 739923 43200000000.

Definition dated_catalog : list json :=
  [dated "Recently Updated Card" "Chase" "10/29/26";
   dated "Month Old Card" "Amex" "09/19/26";
   card "Card Without Date" "Discover";
   dated "Card From The Future" "Citi" "01/01/68";
   dated "Badly Dated Card" "Citi" "2026-10-30"].

Definition found (name issuer : string) (score : Z) (why : list reason)
    : search_match :=
  mkMatch (JStr name) (JStr issuer) JNull JNull JNull score why.

Definition edge (destination : string) (more : list (string * json)) : json :=
  JDict (("Loyalty Program", JStr destination) :: more).

Definition partners : partner_table :=
  [("Chase Ultimate Rewards",
    JList [edge "United MileagePlus"
             [("Ratio", JNum (PFloat 1)); ("Bonus", JNum (PFloat 1.25))];
           edge "World of Hyatt" [("Bonus", JStr "None")];
           edge "Air France-KLM Flying Blue" [];
           edge "Marriott Bonvoy"
             [("Bonus", JStr "Varies"); ("bonus_expiration", JStr "12/31/26")]]);
   ("Amex Membership Rewards",
    JList [edge "Hilton Honors"
             [("Ratio", JNum (PInt 2)); ("Bonus", JNum (PFloat 1.3))];
           edge "Marriott Bonvoy" [("Bonus", JNum (PFloat 1))]])].

Definition valuations : valuation_table :=
  [("united_mileageplus", PFloat 1.2); ("world_of_hyatt", PFloat 1.7);
   ("marriott_bonvoy", PFloat 0.7); ("hilton_honors", PFloat 0.5);
   ("chase_ultimate_rewards", PFloat 2); ("amex_membership_rewards", PFloat 2.2)].

Definition dest (destination : string) (ratio : json) (valuation : num)
    (bonus bonus_expiration : option json) : partner_info :=
  mkPartner (JStr destination) (JBool false) ratio (JStr "") valuation
    bonus bonus_expiration.

(** [dest_programs] of the lookup of "chase" in the "from" direction. *)
Definition chase_dests : list partner_info :=
  [dest "World of Hyatt" (JNum (PFloat 1)) (PFloat 1.7)
     (Some (JStr "None")) None;
   dest "United MileagePlus" (JNum (PFloat 1)) (PFloat 1.2)
     (Some (JNum (PFloat 1.25))) None;
   dest "Air France-KLM Flying Blue" (JNum (PFloat 1)) (PFloat 1) None None;
   dest "Marriott Bonvoy" (JNum (PFloat 1)) (PFloat 0.7)
     (Some (JStr "Varies")) (Some (JStr "12/31/26"))].

(** [source_programs] of the lookup of "marriott" in the "to" direction. *)
Definition marriott_sources : list source_info :=
  [mkSource "Chase Ultimate Rewards" (JNum (PFloat 1)) (JBool false) (JStr "")
     (PFloat 2) (Some (JStr "Varies")) (Some (JStr "12/31/26"));
   mkSource "Amex Membership Rewards" (JNum (PFloat 1)) (JBool false) (JStr "")
     (PFloat 2.2) (Some (JNum (PFloat 1))) None].

(** The outcome of [get_transfer_bonuses("")]. *)
Definition active_bonuses : list bonus_info :=
  [mkBonus "Amex Membership Rewards" (JStr "Hilton Honors")
     (JNum (PFloat 1.3)) (JNum (PInt 2)) (JStr "") None;
   mkBonus "Chase Ultimate Rewards" (JStr "United MileagePlus")
     (JNum (PFloat 1.25)) (JNum (PFloat 1)) (JStr "") None].

(** A card whose only benefit is an airline elite status. *)
Definition medallion_status : json :=
  JDict [("airline_elite_status",
          JList [JDict [("program", JStr "Delta SkyMiles");
                        ("tier", JStr "Silver Medallion");
                        ("description", JStr "Complimentary upgrades")]])].

Definition status_card : json :=
  JDict [("card_name", JStr "Delta SkyMiles Reserve");
         ("benefits", JDict [("status", medallion_status)])].

(** A card whose only benefit is a credit with "airline" in its type. *)
Definition fee_credit_card : json :=
  JDict [("card_name", JStr "Airline Fee Card");
         ("benefits",
          JDict [("credits", JList [JDict [("type", JStr "Airline Fee Credit")]])])].

End Samples.
(** * Sample data for the wallet, the valuations and the other tools *)

Module MoreSamples.

Import DataStorage Tools Spec Store MoreTools StoreSpec Samples.

(** The entry that [add_card_to_wallet] writes. *)
Definition wallet_item (name note : string) : json :=
  JDict [("card_name", JStr name); ("note", JStr note)].

(** The contents of a [user.json]. *)
Definition user_file (wallet : list json) : json :=
  JDict [("wallet", JList wallet);
         ("custom_valuations",
          JDict [("chase_ultimate_rewards", JNum (PFloat 2.05))]);
         ("credits",
          JDict [("Delta", JDict [("added_at", JStr "2026-10-01T09:00:00+00:00")])]);
         ("last_updated", JStr "2026-10-01T09:00:00+00:00")].

Definition sapphire_entry : json :=
  wallet_item "Chase Sapphire Preferred Credit Card" "travel".


(** A wallet with one card. *)
Definition stored : option json := Some (user_file [sapphire_entry]).

(** The defaults of a [valuations.json]. *)
Definition default_valuations : dict :=
  [("chase_ultimate_rewards", JNum (PFloat 1.5));
   ("united_mileageplus", JNum (PFloat 1.2))].

(** The merged valuations of these defaults and the custom valuation of
    [user_file]. *)
Definition merged_valuations : dict :=
  [("chase_ultimate_rewards", JNum (PFloat 2.05));
   ("united_mileageplus", JNum (PFloat 1.2))].

(** The contents of a [valuations.json]. *)
Definition valuations_file : json :=
  JDict [("version", JStr "1.0"); ("unit", JStr "cents_per_point");
         ("valuations",
          JDict [("chase_ultimate_rewards",
                  JDict [("value", JNum (PFloat 1.5));
                         ("display_name", JStr "Chase Ultimate Rewards");
                         ("category", JStr "Transferable Points")]);
                 ("united_mileageplus",
                  JDict [("value", JNum (PFloat 1.2));
                         ("display_name", JStr "United Airlines Miles")])])].

(** A stand-in for [float] on texts in the examples: the integers in
    decimal notation.  The theorems hold for every such function. *)
Definition sample_float (s : string) : option Q :=
  option_map (fun i => inject_Z (Z.of_int i)) (NilZero.int_of_string s).

Definition offer_card (name card_type : string) (estimate : json) : json :=
  JDict [("card_name", JStr name); ("card_type", JStr card_type);
         ("first_year_value_estimate", estimate)].

Definition ink : json := offer_card "Ink Business Preferred" "Business" (JNum (PInt 1200)).
Definition sapphire : json := offer_card "Chase Sapphire Preferred" "personal" (JStr "1000").
Definition gold : json := offer_card "American Express Gold Card" "Personal" (JNum (PFloat 950.5)).
Definition venture : json := offer_card "Capital One Venture" "personal" (JNum (PInt 1100)).

(** A catalog with estimates: a number, a text that spells a number, a
    text that spells none, and no estimate at all. *)
Definition offer_catalog : list json :=
  [gold; ink; sapphire;
   offer_card "Store Card" "personal" (JStr "n/a");
   offer_card "Debit Card" "personal" JNull;
   venture].

(** The two best personal offers of [offer_catalog]. *)
Definition top_personal : list offer :=
  [offer_for venture 1100; offer_for sapphire 1000].

(** The match of [benefits_search] for [fee_credit_card]. *)
Definition fee_credit_match : benefit_match :=
  mkBenefit (JStr "Airline Fee Card") JNull JNull JNull JNull JNull
    (JDict [("credits", JList [JDict [("type", JStr "Airline Fee Credit")]])])
    JNull JNull.

End MoreSamples.

(** * Theorems *)

Import DataStorage Tools Spec Samples.

Unset Implicit Arguments.


(** * data_storage.py: name resolution *)

Section Resolution.

Variable WRatio : string -> string -> Q.

Lemma Qle_bool_false (x y : Q) : Qle_bool x y = false -> (y < x)%Q.
Proof.
  intros H. apply Qnot_le_lt. intros L.
  apply Qle_bool_iff in L. congruence.
Qed.

(** The threshold only gates the best choice. *)
Lemma extractOne_from_accept (query : string) (cutoff : Q)
    (choices : list json) (acc : option (json * Q)) :
  extractOne_from WRatio query cutoff (accept cutoff acc) choices
  = (r <- best_from WRatio query acc choices ;; Ok (accept cutoff r)).
Proof.
  revert acc. induction choices as [|c rest IH]; intros acc; [reflexivity|].
  destruct c; try reflexivity. cbn [extractOne_from best_from].
  generalize (WRatio query s); intros sc.
  destruct acc as [[y a]|]; cbn [accept].
  - destruct (Qle_bool cutoff a) eqn:Ca.
    + destruct (Qle_bool sc a) eqn:Sa; cbn [negb].
      * rewrite andb_false_r. rewrite <- IH. cbn [accept]. now rewrite Ca.
      * assert (Qle_bool cutoff sc = true) as ->.
        { apply Qle_bool_iff. apply Qle_bool_iff in Ca.
          apply Qle_bool_false in Sa. lra. }
        cbn [andb]. rewrite <- IH. cbn [accept].
        replace (Qle_bool cutoff sc) with true; [reflexivity|].
        symmetry. apply Qle_bool_iff. apply Qle_bool_iff in Ca.
        apply Qle_bool_false in Sa. lra.
    + rewrite andb_true_r.
      destruct (Qle_bool cutoff sc) eqn:Cs.
      * assert (Qle_bool sc a = false) as ->.
        { destruct (Qle_bool sc a) eqn:Sa; [|reflexivity].
          apply Qle_bool_iff in Sa, Cs. apply Qle_bool_false in Ca. lra. }
        rewrite <- IH. cbn [accept]. now rewrite Cs.
      * destruct (Qle_bool sc a) eqn:Sa.
        -- rewrite <- IH. cbn [accept]. now rewrite Ca.
        -- rewrite <- IH. cbn [accept]. now rewrite Cs.
  - rewrite andb_true_r. rewrite <- IH. cbn [accept].
    destruct (Qle_bool cutoff sc); reflexivity.
Qed.

Lemma extractOne_accept (query : string) (choices : list json) (cutoff : Q) :
  extractOne WRatio query choices cutoff
  = (r <- best_from WRatio query None choices ;; Ok (accept cutoff r)).
Proof. apply (extractOne_from_accept query cutoff choices None). Qed.

Lemma accept_lower (c1 c2 : Q) (r : option (json * Q)) (x : json * Q) :
  (c1 <= c2)%Q -> accept c2 r = Some x -> accept c1 r = Some x.
Proof.
  intros L. destruct r as [[y a]|]; cbn; [|discriminate].
  destruct (Qle_bool c2 a) eqn:E; [|discriminate].
  intros H. replace (Qle_bool c1 a) with true; [exact H|].
  symmetry. apply Qle_bool_iff. apply Qle_bool_iff in E. lra.
Qed.

Lemma accept_raise (c1 c2 : Q) (r : option (json * Q)) :
  (c1 <= c2)%Q -> accept c1 r = None -> accept c2 r = None.
Proof.
  intros L H. destruct (accept c2 r) as [x|] eqn:E; [|reflexivity].
  rewrite (accept_lower c1 c2 r x L E) in H. discriminate.
Qed.

End Resolution.

(** ** The lookup table *)

Lemma key_eqb_str (k : json) (s : string) :
  key_eqb k (JStr s) = true -> k = JStr s.
Proof.
  destruct k as [|b|n|t|l|d]; cbn; try discriminate.
  intros H. apply String.eqb_eq in H. now subst.
Qed.

Lemma key_eqb_of_str (s : string) (k : json) :
  key_eqb (JStr s) k = true -> k = JStr s.
Proof.
  destruct k as [|b|n|t|l|d]; cbn; try discriminate.
  intros H. apply String.eqb_eq in H. now subst.
Qed.

Lemma get_truthy (card : json) (n : json) :
  get_opt card "card_name" = Ok n -> truthy n = true ->
  get card "card_name" (JStr "") = Ok n.
Proof.
  destruct card; cbn; try discriminate.
  destruct (lookup d "card_name"); [trivial|].
  intros [= <-]. discriminate.
Qed.

Lemma store_ok (cards : list json) (acc : table) (k v : json) :
  Forall (entry_ok cards) acc -> entry_ok cards (k, v) ->
  Forall (entry_ok cards) (store acc k v).
Proof.
  intros Hacc Hkv. induction Hacc as [|[k' v'] r Hx Hr IH]; cbn.
  - constructor; [exact Hkv|constructor].
  - destruct (key_eqb k' k) eqn:E.
    + constructor; [|exact Hr].
      destruct Hkv as [Hin [n [Hn [Ht Hk]]]]. cbn in *.
      split; [exact Hin|]. exists n. repeat split; trivial.
      destruct k as [|b|m|t|l|d]; cbn in Hk.
      * destruct n; try discriminate; exact E.
      * destruct n as [|b'|m'| | |]; try discriminate; cbn in Hk;
          destruct k' as [|b''|m''| | |]; cbn in E |- *; try discriminate;
          apply Qeq_bool_iff; apply Qeq_bool_iff in E, Hk; lra.
      * destruct n as [|b'|m'| | |]; try discriminate; cbn in Hk;
          destruct k' as [|b''|m''| | |]; cbn in E |- *; try discriminate;
          apply Qeq_bool_iff; apply Qeq_bool_iff in E, Hk; lra.
      * apply key_eqb_of_str in Hk. subst n. exact E.
      * discriminate.
      * discriminate.
    + constructor; [exact Hx|exact IH].
Qed.

Lemma build_lookup_ok (cards cs : list json) (acc lk : table) :
  incl cs cards -> Forall (entry_ok cards) acc ->
  build_lookup cs acc = Ok lk -> Forall (entry_ok cards) lk.
Proof.
  revert acc. induction cs as [|c cs IH]; intros acc Hin Hacc; cbn.
  - now intros [= <-].
  - destruct (get_opt c "card_name") as [n|] eqn:Hn; cbn; [|discriminate].
    assert (incl cs cards) as Hin' by (intros x Hx; apply Hin; now right).
    destruct (truthy n) eqn:Ht; [|now apply IH].
    rewrite (get_truthy _ _ Hn Ht). cbn. unfold setitem.
    destruct (hashable n) eqn:Hh; cbn; [|discriminate].
    apply IH; [exact Hin'|]. apply store_ok; [exact Hacc|].
    split; cbn; [apply Hin; now left|].
    exists n. repeat split; trivial.
    destruct n as [|b|m|t|l|d]; cbn in *; try discriminate; trivial.
    + apply Qeq_bool_iff. reflexivity.
    + apply Qeq_bool_iff. reflexivity.
    + apply String.eqb_refl.
Qed.

Lemma getitem_in (lk : table) (name v : json) :
  getitem lk name = Ok v ->
  exists k, In (k, v) lk /\ key_eqb k name = true.
Proof.
  induction lk as [|[k' v'] r IH]; cbn; [discriminate|].
  destruct (key_eqb k' name) eqn:E.
  - intros [= <-]. exists k'. split; [now left|exact E].
  - intros H. destruct (IH H) as [k [Hk Hk']]. exists k. split; [now right|exact Hk'].
Qed.

(** A record found under a string key carries that string as its name. *)
Lemma getitem_named (cards : list json) (lk : table) (s : string) (v : json) :
  Forall (entry_ok cards) lk -> getitem lk (JStr s) = Ok v ->
  In v cards /\ named v s.
Proof.
  intros Hok Hget. destruct (getitem_in _ _ _ Hget) as [k [Hin Hk]].
  apply key_eqb_str in Hk. subst k.
  rewrite Forall_forall in Hok. destruct (Hok _ Hin) as [Hc [n [Hn [Ht He]]]].
  cbn in *. apply key_eqb_of_str in He. subst n.
  split; [exact Hc|]. split; [exact Hn|].
  cbn in Ht. intros ->. discriminate.
Qed.

Lemma exact_match_named (cards : list json) (lk : table) (q : string)
    (names : list json) (card : json) :
  Forall (entry_ok cards) lk ->
  exact_match lk q names = Ok (Some card) ->
  In card cards /\ exists s, named card s.
Proof.
  intros Hok. induction names as [|name rest IH]; cbn; [discriminate|].
  destruct name as [| | |s| |]; cbn; try discriminate.
  destruct (String.eqb q (lower s)); [|exact IH].
  destruct (getitem lk (JStr s)) as [v|] eqn:Hget; cbn; [|discriminate].
  intros [= <-]. destruct (getitem_named _ _ _ _ Hok Hget) as [Hin Hn].
  split; [exact Hin|now exists s].
Qed.

Lemma best_from_str (WRatio : string -> string -> Q) (query : string)
    (choices : list json) (acc : option (json * Q)) (c : json) (sc : Q) :
  (forall x y, acc = Some (x, y) -> exists s, x = JStr s) ->
  best_from WRatio query acc choices = Ok (Some (c, sc)) ->
  exists s, c = JStr s.
Proof.
  revert acc. induction choices as [|ch rest IH]; intros acc Hacc; cbn.
  - intros [= ->]. eapply Hacc. reflexivity.
  - destruct ch as [| | |s| |]; try discriminate.
    assert (forall x y, Some (JStr s, WRatio query s) = Some (x, y) ->
            exists s0, x = JStr s0) as Hnew
      by (intros x y [= <- _]; now exists s).
    destruct acc as [[x a]|].
    + destruct (Qle_bool (WRatio query s) a); apply IH; trivial.
    + apply IH; trivial.
Qed.

(** C10.  Whenever [get_credit_card_by_name] returns a record, on the
    exact-match path or on the fuzzy path, the record is an entry of the
    catalog whose [card_name] is present and is a non-empty string:
    entries without a name, or with an empty one, never enter the lookup
    table and are never returned. *)
Theorem returned_record_is_named (WRatio : string -> string -> Q)
    (threshold : Z) (cards : list json) (query : string) (card : json) :
  get_credit_card_by_name WRatio threshold cards query = Ok (Some card) ->
  In card cards
  /\ exists s, get_opt card "card_name" = Ok (JStr s) /\ s <> "".
Proof.
  unfold get_credit_card_by_name.
  destruct cards as [|c0 cs]; [discriminate|].
  set (cards := c0 :: cs).
  destruct (build_lookup cards []) as [lk|] eqn:Hlk; cbn [bind]; [|discriminate].
  assert (Forall (entry_ok cards) lk) as Hok.
  { eapply build_lookup_ok; [apply incl_refl|constructor|exact Hlk]. }
  destruct (exact_match lk (strip (lower query)) (map fst lk)) as [hit|] eqn:Hex;
    cbn [bind]; [|discriminate].
  destruct hit as [v|].
  - intros [= <-]. destruct (exact_match_named _ _ _ _ _ Hok Hex) as [Hin [s Hs]].
    split; [exact Hin|]. exists s. exact Hs.
  - rewrite extractOne_accept.
    destruct (best_from WRatio query None (map fst lk)) as [r|] eqn:Hb;
      cbn [bind]; [|discriminate].
    destruct (accept (inject_Z threshold) r) as [[m sc]|] eqn:Ha; [|discriminate].
    assert (r = Some (m, sc)) as ->.
    { destruct r as [[x y]|]; cbn in Ha; [|discriminate].
      destruct (Qle_bool (inject_Z threshold) y); [exact Ha|discriminate]. }
    destruct (best_from_str _ _ _ None _ _ ltac:(discriminate) Hb) as [s ->].
    destruct (getitem lk (JStr s)) as [v|] eqn:Hget; cbn [bind]; [|discriminate].
    intros [= <-]. destruct (getitem_named _ _ _ _ Hok Hget) as [Hin Hn].
    split; [exact Hin|]. exists s. exact Hn.
Qed.

(** C5.  Resolution is monotone in the acceptance threshold.  For
    thresholds [t1 <= t2]: a query that is not found at [t1] is not found
    at [t2], and a record returned at [t2] is the record returned at
    [t1].  The threshold gates the best-scoring candidate and has no part
    in choosing it. *)
Theorem resolution_monotone_in_threshold (WRatio : string -> string -> Q)
    (t1 t2 : Z) (cards : list json) (query : string) :
  t1 <= t2 ->
  (get_credit_card_by_name WRatio t1 cards query = Ok None ->
   get_credit_card_by_name WRatio t2 cards query = Ok None)
  /\ (forall card,
        get_credit_card_by_name WRatio t2 cards query = Ok (Some card) ->
        get_credit_card_by_name WRatio t1 cards query = Ok (Some card)).
Proof.
  intros Ht. assert (inject_Z t1 <= inject_Z t2)%Q as Hq
    by (rewrite <- Zle_Qle; exact Ht).
  unfold get_credit_card_by_name.
  destruct cards as [|c0 cs]; [split; auto|].
  destruct (build_lookup (c0 :: cs) []) as [lk|]; cbn [bind];
    [|split; auto].
  destruct (exact_match lk (strip (lower query)) (map fst lk)) as [[v|]|];
    cbn [bind]; try solve [split; auto].
  rewrite !extractOne_accept.
  destruct (best_from WRatio query None (map fst lk)) as [r|]; cbn [bind];
    [|split; auto].
  destruct (accept (inject_Z t2) r) as [[m2 s2]|] eqn:H2.
  - rewrite (accept_lower _ _ r _ Hq H2). split; auto.
  - split; [auto|discriminate].
Qed.

(** ** The exact-match pass on a catalog of card objects *)

Lemma store_str_keys (acc : table) (s : string) (v : json) :
  Forall str_key acc -> Forall str_key (store acc (JStr s) v).
Proof.
  induction 1 as [|[k' v'] r Hx Hr IH]; cbn.
  - constructor; [now exists s|constructor].
  - destruct (key_eqb k' (JStr s)); constructor; trivial.
Qed.

Lemma store_keeps (acc : table) (k k' v : json) :
  In k (map fst acc) -> In k (map fst (store acc k' v)).
Proof.
  induction acc as [|[a b] r IH]; cbn; [tauto|].
  destruct (key_eqb a k'); cbn; tauto.
Qed.

Lemma store_has (acc : table) (s : string) (v : json) :
  In (JStr s) (map fst (store acc (JStr s) v)).
Proof.
  induction acc as [|[a b] r IH]; cbn; [now left|].
  destruct (key_eqb a (JStr s)) eqn:E; cbn.
  - left. now apply key_eqb_str.
  - now right.
Qed.

Lemma build_lookup_objects (cs : list json) (acc : table) :
  Forall card_object cs -> Forall str_key acc ->
  exists lk, build_lookup cs acc = Ok lk
    /\ Forall str_key lk
    /\ (forall k, In k (map fst acc) -> In k (map fst lk))
    /\ (forall c s, In c cs -> named c s -> In (JStr s) (map fst lk)).
Proof.
  intros Hcs. revert acc.
  induction Hcs as [|c cs [d [-> Hd]] Hr IH]; intros acc Hacc.
  - exists acc. cbn. repeat split; trivial. intros c s [].
  - cbn [build_lookup get_opt get bind].
    destruct (lookup d "card_name") as [v|] eqn:Hv.
    + destruct (truthy v) eqn:Ht.
      * destruct (Hd v eq_refl Ht) as [s ->].
        cbn [setitem hashable bind].
        destruct (IH (store acc (JStr s) (JDict d)) (store_str_keys acc s _ Hacc))
          as [lk [H1 [H2 [H3 H4]]]].
        exists lk. repeat split; trivial.
        -- intros k Hk. apply H3. now apply store_keeps.
        -- intros c s' [<-|Hc] Hn; [|now apply (H4 c s')].
           destruct Hn as [Hn _]. cbn in Hn. rewrite Hv in Hn.
           injection Hn as <-. apply H3. apply store_has.
      * destruct (IH acc Hacc) as [lk [H1 [H2 [H3 H4]]]].
        exists lk. repeat split; trivial.
        intros c s' [<-|Hc] Hn; [|now apply (H4 c s')].
        destruct Hn as [Hn Hne]. cbn in Hn. rewrite Hv in Hn.
        injection Hn as ->. cbn in Ht.
        apply negb_false_iff, String.eqb_eq in Ht. contradiction.
    + cbn [truthy]. destruct (IH acc Hacc) as [lk [H1 [H2 [H3 H4]]]].
      exists lk. repeat split; trivial.
      intros c s [<-|Hc] Hn; [|now apply (H4 c s)].
      destruct Hn as [Hn _]. cbn in Hn. rewrite Hv in Hn. discriminate.
Qed.

Lemma getitem_total (lk : table) (s : string) :
  In (JStr s) (map fst lk) -> exists v, getitem lk (JStr s) = Ok v.
Proof.
  induction lk as [|[a b] r IH]; cbn; [tauto|].
  destruct (key_eqb a (JStr s)) eqn:E; [now exists b|].
  intros [->|H]; [|now apply IH].
  cbn in E. rewrite String.eqb_refl in E. discriminate.
Qed.





Lemma returned_record_is_named_witness :
  get_credit_card_by_name sample_ratio 85 catalog "Venture X"
  = Ok (Some (card "Capital One Venture X Rewards Credit Card" "Capital One"))
  /\ In (card "Capital One Venture X Rewards Credit Card" "Capital One") catalog
  /\ exists s,
       get_opt (card "Capital One Venture X Rewards Credit Card" "Capital One")
         "card_name" = Ok (JStr s) /\ s <> "".
Proof.
  split; [reflexivity|].
  apply (returned_record_is_named sample_ratio 85 catalog "Venture X").
  reflexivity.
Defined.

Lemma resolution_monotone_in_threshold_witness :
  85 <= 95
  /\ (get_credit_card_by_name sample_ratio 85 catalog "Venture X" = Ok None ->
      get_credit_card_by_name sample_ratio 95 catalog "Venture X" = Ok None)
  /\ (forall card,
        get_credit_card_by_name sample_ratio 95 catalog "Venture X"
          = Ok (Some card) ->
        get_credit_card_by_name sample_ratio 85 catalog "Venture X"
          = Ok (Some card)).
Proof.
  split; [lia|].
  apply (resolution_monotone_in_threshold sample_ratio 85 95 catalog "Venture X").
  lia.
Defined.

(** * tools.py: credit_card_search *)


Section SortFacts.

Variable A : Type.
Variable lt : A -> A -> bool.

Lemma insert_desc_perm (x : A) (l : list A) :
  Permutation (x :: l) (insert_desc lt x l).
Proof.
  induction l as [|y r IH]; cbn; [reflexivity|].
  destruct (lt x y); [|reflexivity].
  rewrite perm_swap. now constructor.
Qed.

Lemma sort_desc_perm (l : list A) : Permutation l (sort_desc lt l).
Proof.
  induction l as [|x r IH]; cbn; [reflexivity|].
  rewrite <- insert_desc_perm. now constructor.
Qed.

Lemma sort_desc_Forall (P : A -> Prop) (l : list A) :
  Forall P l -> Forall P (sort_desc lt l).
Proof.
  intros H. rewrite Forall_forall in *. intros x Hx. apply H.
  eapply Permutation_in; [symmetry; apply sort_desc_perm|exact Hx].
Qed.


(** The sort is stable: elements that share a key keep their order.
    [same] picks the elements of one key. *)
Variable same : A -> bool.
Hypothesis same_not_lt :
  forall x y, same x = true -> lt x y = true -> same y = false.

Lemma insert_desc_stable (x : A) (l : list A) :
  filter same (insert_desc lt x l) = filter same (x :: l).
Proof.
  induction l as [|y r IH]; [reflexivity|].
  cbn [insert_desc]. destruct (lt x y) eqn:E; [|reflexivity].
  cbn [filter] in *. rewrite IH.
  destruct (same x) eqn:Sx; [|reflexivity].
  now rewrite (same_not_lt x y Sx E).
Qed.

Lemma sort_desc_stable (l : list A) :
  filter same (sort_desc lt l) = filter same l.
Proof.
  induction l as [|x r IH]; [reflexivity|].
  cbn [sort_desc]. rewrite insert_desc_stable. cbn [filter]. now rewrite IH.
Qed.

(** With a key in [Q] the outcome is in descending order of the key. *)
Variable key : A -> Q.
Hypothesis lt_key : forall a b, lt a b = negb (Qle_bool (key b) (key a)).

Lemma insert_desc_sorted (x : A) (l : list A) :
  StronglySorted (fun a b => (key b <= key a)%Q) l ->
  StronglySorted (fun a b => (key b <= key a)%Q) (insert_desc lt x l).
Proof.
  induction 1 as [|y r Hr IH Hy]; cbn.
  - constructor; constructor.
  - rewrite lt_key. destruct (Qle_bool (key y) (key x)) eqn:E; cbn [negb].
    + apply Qle_bool_iff in E. constructor; [now constructor|].
      constructor; [exact E|].
      rewrite Forall_forall in *. intros z Hz.
      specialize (Hy z Hz). cbn beta in *. lra.
    + apply Qle_bool_false in E. constructor; [exact IH|].
      rewrite Forall_forall in *. intros z Hz.
      apply (Permutation_in _ (Permutation_sym (insert_desc_perm x r))) in Hz.
      destruct Hz as [<-|Hz]; [lra|now apply Hy].
Qed.

Lemma sort_desc_sorted (l : list A) :
  StronglySorted (fun a b => (key b <= key a)%Q) (sort_desc lt l).
Proof.
  induction l as [|x r IH]; cbn; [constructor|now apply insert_desc_sorted].
Qed.

End SortFacts.

Lemma firstn_Forall (A : Type) (P : A -> Prop) (n : nat) (l : list A) :
  Forall P l -> Forall P (firstn n l).
Proof.
  intros H. rewrite Forall_forall in *. intros x Hx. apply H.
  rewrite <- (firstn_skipn n l). apply in_or_app. now left.
Qed.


(** What a search that comes back with results has computed. *)
Lemma credit_card_search_done (cards : list json) (now : datetime)
    (query : string) (max_results recently_updated : json)
    (results : list search_match) :
  credit_card_search cards now query max_results recently_updated
    = Done results <->
  valid_query query
  /\ exists m pool ranked,
       positive_int max_results = Some m
       /\ eligible_cards now recently_updated cards = Ok (Done pool)
       /\ ranked_matches query pool = Ok ranked
       /\ results = firstn (Z.to_nat (Z.min m 50)) ranked.
Proof.
  unfold credit_card_search, valid_query, eligible_cards, ranked_matches.
  destruct (String.eqb query "") eqn:Eq.
  { apply String.eqb_eq in Eq. cbn. split; [discriminate|]. tauto. }
  apply String.eqb_neq in Eq.
  destruct (500 <? Z.of_nat (String.length query)) eqn:El.
  { apply Z.ltb_lt in El. cbn. split; [discriminate|]. lia. }
  apply Z.ltb_ge in El.
  destruct (positive_int max_results) as [m|].
  2:{ cbn. split; [discriminate|].
      intros [_ [m [pool [ranked [H _]]]]]. discriminate. }
  assert ((if 50 <? m then 50 else m) = Z.min m 50) as ->
    by (destruct (Z.ltb_spec 50 m); lia).
  assert (forall pool,
    try_except (matches <- collect_matches (lower query) pool ;;
                Ok (Done (firstn (Z.to_nat (Z.min m 50))
                            (sort_desc score_lt matches)))) = Done results <->
    exists ranked,
      (matches <- collect_matches (lower query) pool ;;
       Ok (sort_desc score_lt matches)) = Ok ranked
      /\ results = firstn (Z.to_nat (Z.min m 50)) ranked) as Hpool.
  { intros pool. destruct (collect_matches (lower query) pool) as [ms|]; cbn.
    - split.
      + intros [= <-]. now eexists.
      + intros [ranked [[= <-] ->]]. reflexivity.
    - split; [discriminate|]. intros [ranked [H _]]. discriminate. }
  destruct recently_updated as [|b|n|s|l|d].
  1:{ rewrite Hpool. split.
      - intros [ranked H]. split; [tauto|]. exists m, cards, ranked. tauto.
      - intros [_ [m' [pool [ranked [[= <-] [[= <-] H]]]]]]. now exists ranked. }
  all: destruct (positive_int _) as [days|] eqn:Ep; cbn [bind];
    [|split; [discriminate
             |intros [_ [m' [pool [ranked [_ [H _]]]]]]; discriminate]].
  all: destruct (minus_days now days) as [cutoff|]; cbn [bind];
    [|split; [discriminate
             |intros [_ [m' [pool [ranked [_ [H _]]]]]]; discriminate]].
  all: destruct (filter_recent cutoff cards) as [f|]; cbn [bind];
    [|split; [discriminate
             |intros [_ [m' [pool [ranked [_ [H _]]]]]]; discriminate]].
  all: rewrite Hpool; split;
    [intros [ranked H]; split; [tauto|]; exists m, f, ranked; tauto
    |intros [_ [m' [pool [ranked [[= <-] [[= <-] H]]]]]]; now exists ranked].
Qed.

Lemma collect_matches_positive (query_lower : string) (cards : list json)
    (matches : list search_match) :
  collect_matches query_lower cards = Ok matches ->
  Forall (fun r => 0 < sm_score r) matches.
Proof.
  revert matches. induction cards as [|c cs IH]; intros matches; cbn.
  - intros [= <-]. constructor.
  - destruct (score_card query_lower c) as [t|]; cbn [bind]; [|discriminate].
    destruct (0 <? fst t) eqn:E; [|apply IH].
    unfold summarize.
    repeat (match goal with
            | |- context [bind (get_opt ?c ?f) _] =>
                destruct (get_opt c f); cbn [bind]; [|discriminate]
            end).
    destruct (collect_matches query_lower cs) as [ms|]; cbn [bind]; [|discriminate].
    intros [= <-]. constructor; [cbn; now apply Z.ltb_lt|now apply IH].
Qed.

(** Matches of equal score stay in the order of the catalog. *)
Lemma ranked_ties_keep_order (query : string) (cards : list json)
    (matches ranked : list search_match) (score : Z) :
  collect_matches (lower query) cards = Ok matches ->
  ranked_matches query cards = Ok ranked ->
  filter (fun r => sm_score r =? score) ranked
  = filter (fun r => sm_score r =? score) matches.
Proof.
  unfold ranked_matches. intros ->. cbn [bind]. intros [= <-].
  apply sort_desc_stable. intros x y Hx Hlt.
  unfold score_lt in Hlt. apply Z.eqb_eq in Hx. apply Z.ltb_lt in Hlt.
  apply Z.eqb_neq. lia.
Qed.

(** C7.  Every result of a search has a score above 0, and a search with
    a lower [max_results] returns a prefix of the results of the search
    with the higher one: the first [m1] of them, in the same order. *)
Theorem search_scores_positive_and_prefix (cards : list json) (now : datetime)
    (query : string) (recently_updated max1 max2 : json) (m1 m2 : Z)
    (results : list search_match) :
  positive_int max1 = Some m1 -> positive_int max2 = Some m2 -> m1 <= m2 ->
  credit_card_search cards now query max2 recently_updated = Done results ->
  Forall (fun r => 0 < sm_score r) results
  /\ credit_card_search cards now query max1 recently_updated
     = Done (firstn (Z.to_nat m1) results)
  /\ exists dropped, results = firstn (Z.to_nat m1) results ++ dropped.
Proof.
  intros H1 H2 Hle Hdone.
  apply credit_card_search_done in Hdone.
  destruct Hdone as [Hq [m [pool [ranked [Hm [Hpool [Hrank ->]]]]]]].
  rewrite H2 in Hm. injection Hm as <-.
  split; [|split].
  - apply firstn_Forall. unfold ranked_matches in Hrank.
    destruct (collect_matches (lower query) pool) as [ms|] eqn:Hms;
      cbn in Hrank; [|discriminate].
    injection Hrank as <-. apply sort_desc_Forall.
    now apply (collect_matches_positive (lower query) pool).
  - apply credit_card_search_done. split; [exact Hq|].
    exists m1, pool, ranked. repeat split; trivial.
    rewrite firstn_firstn. f_equal. lia.
  - exists (skipn (Z.to_nat m1) (firstn (Z.to_nat (Z.min m2 50)) ranked)).
    symmetry. apply firstn_skipn.
Qed.



(** C8, as the code has it.  An integer [max_results] below 1 is answered
    with a validation error; one of at least 1 is capped at 50 and the
    ranked list is cut to that many entries. *)
Theorem max_results_is_capped (cards : list json) (now : datetime)
    (query : string) (recently_updated : json) (m : Z) :
  valid_query query ->
  (m < 1 ->
   credit_card_search cards now query (JNum (PInt m)) recently_updated
   = Invalid "max_results must be a positive integer")
  /\ (1 <= m ->
      forall pool ranked,
        eligible_cards now recently_updated cards = Ok (Done pool) ->
        ranked_matches query pool = Ok ranked ->
        credit_card_search cards now query (JNum (PInt m)) recently_updated
        = Done (firstn (Z.to_nat (Z.min m 50)) ranked)
        /\ Z.of_nat (List.length (firstn (Z.to_nat (Z.min m 50)) ranked))
           <= Z.min m 50).
Proof.
  intros [Hq Hl]. split.
  - intros Hm. unfold credit_card_search.
    apply String.eqb_neq in Hq. rewrite Hq.
    apply Z.ltb_ge in Hl. rewrite Hl.
    unfold positive_int. cbn [int_val].
    apply Z.ltb_lt in Hm. now rewrite Hm.
  - intros Hm pool ranked Hpool Hrank. split.
    + apply credit_card_search_done. split; [now split|].
      exists m, pool, ranked. repeat split; trivial.
      unfold positive_int. cbn [int_val].
      apply Z.ltb_ge in Hm. now rewrite Hm.
    + rewrite length_firstn. lia.
Qed.

Example search_recent_cards :
  credit_card_search dated_catalog today "card" (JNum (PInt 5)) (JNum (PInt 30))
  = Done [found "Recently Updated Card" "Chase" 10 [CardNameMatch];
          found "Card From The Future" "Citi" 10 [CardNameMatch]].
Proof. reflexivity. Qed.

Lemma search_scores_positive_and_prefix_witness :
  let results :=
    [found "The Platinum Card from American Express" "American Express" 15
       [CardNameMatch; IssuerMatch];
     found "American Express Gold Card" "American Express" 15
       [CardNameMatch; IssuerMatch]] in
  Forall (fun r => 0 < sm_score r) results
  /\ credit_card_search catalog today "express" (JNum (PInt 1)) JNull
     = Done (firstn (Z.to_nat 1) results)
  /\ exists dropped, results = firstn (Z.to_nat 1) results ++ dropped.
Proof.
  apply (search_scores_positive_and_prefix catalog today "express" JNull
           (JNum (PInt 1)) (JNum (PInt 5)) 1 5).
  - reflexivity.
  - reflexivity.
  - lia.
  - reflexivity.
Defined.



Lemma max_results_is_capped_witness :
  valid_query "card"
  /\ credit_card_search dated_catalog today "card" (JNum (PInt 0)) JNull
     = Invalid "max_results must be a positive integer"
  /\ credit_card_search dated_catalog today "card" (JNum (PInt 60)) JNull
     = Done (firstn 50
               [found "Recently Updated Card" "Chase" 10 [CardNameMatch];
                found "Month Old Card" "Amex" 10 [CardNameMatch];
                found "Card Without Date" "Discover" 10 [CardNameMatch];
                found "Card From The Future" "Citi" 10 [CardNameMatch];
                found "Badly Dated Card" "Citi" 10 [CardNameMatch]]).
Proof.
  assert (valid_query "card") as Hq by (split; [discriminate|cbn; lia]).
  split; [exact Hq|]. split.
  - apply (proj1 (max_results_is_capped dated_catalog today "card" JNull 0 Hq)).
    lia.
  - assert (1 <= 60) as Hm by lia.
    apply (proj1 (proj2 (max_results_is_capped dated_catalog today "card"
                           JNull 60 Hq) Hm dated_catalog _ eq_refl eq_refl)).
Defined.

(** C8, as stated, fails: 0 is not clamped to 1.  The ranked list has a
    first entry, and the search with [max_results = 0] does not return
    it but a validation error. *)
Lemma max_results_counterexample :
  ranked_matches "chase" catalog
  = Ok [found "Chase Sapphire Preferred Credit Card" "Chase" 15
          [CardNameMatch; IssuerMatch]]
  /\ credit_card_search catalog today "chase" (JNum (PInt 0)) JNull
     = Invalid "max_results must be a positive integer"
  /\ credit_card_search catalog today "chase" (JNum (PInt 0)) JNull
     <> Done (firstn 1
                [found "Chase Sapphire Preferred Credit Card" "Chase" 15
                   [CardNameMatch; IssuerMatch]]).
Proof. repeat split. discriminate. Qed.

(** * tools.py: lookup_transfer_partners *)














(** * tools.py: get_transfer_bonuses *)






Example lookup_from_chase :
  lookup_transfer_partners partners valuations "chase" "from"
  = Done (FromProgram "Chase Ultimate Rewards" chase_dests).
Proof. reflexivity. Qed.

Example lookup_to_marriott :
  lookup_transfer_partners partners valuations "marriott" "to"
  = Done (ToProgram "marriott" (PFloat 1) marriott_sources).
Proof. reflexivity. Qed.

Example lookup_of_unknown_program :
  lookup_transfer_partners partners valuations "avios" "from"
  = Done (NoneFound "avios")
  /\ lookup_transfer_partners partners valuations "avios" "to"
     = Done (NoneFound "avios").
Proof. split; reflexivity. Qed.




Example bonuses_of_the_sample_table :
  get_transfer_bonuses partners "" = Done active_bonuses
  /\ get_transfer_bonuses partners "Chase" = Done (skipn 1 active_bonuses).
Proof. split; reflexivity. Qed.


(** * tools.py: benefits_search *)

Section BenefitFacts.

Variable repr : json -> string.










End BenefitFacts.

Example category_query_ignores_the_text :
  card_matches show (lower "Airline Status") status_card = Ok true
  /\ card_matches show (lower "hotel status") status_card = Ok false
  /\ card_matches show (lower "Silver Medallion") status_card = Ok true
  /\ card_matches show (lower "Delta Silver") status_card = Ok false
  /\ card_matches show (lower "elite delta") status_card = Ok true.
Proof. repeat split. Qed.




(** * Further properties: the wallet, the valuations and the other tools *)

Import Store MoreTools Miles StoreSpec.

(** ** Dicts *)

Lemma lookup_assign (d : dict) (k k' : string) (v : json) :
  lookup (assign d k v) k'
  = if String.eqb k k' then Some v else lookup d k'.
Proof.
  induction d as [|[a b] r IH]; cbn [assign lookup].
  - reflexivity.
  - destruct (String.eqb a k) eqn:E; cbn [lookup].
    + apply String.eqb_eq in E. subst a.
      destruct (String.eqb k k'); reflexivity.
    + rewrite IH. destruct (String.eqb a k') eqn:E'; [|reflexivity].
      apply String.eqb_eq in E'. subst a.
      rewrite String.eqb_sym in E. now rewrite E.
Qed.


Lemma assign_new (d : dict) (k : string) (v : json) :
  lookup d k = None -> assign d k v = d ++ [(k, v)].
Proof.
  induction d as [|[a b] r IH]; cbn [assign lookup app]; [reflexivity|].
  destruct (String.eqb a k); [discriminate|]. intros H. now rewrite IH.
Qed.


Lemma discard_assign_new (d : dict) (k : string) (v : json) :
  lookup d k = None -> discard (assign d k v) k = d.
Proof.
  induction d as [|[a b] r IH]; cbn [assign lookup discard].
  - now rewrite String.eqb_refl.
  - destruct (String.eqb a k) eqn:E; [discriminate|].
    intros H. cbn [discard]. now rewrite E, IH.
Qed.

Lemma lookup_not_in (d : dict) (k : string) :
  ~ In k (map fst d) -> lookup d k = None.
Proof.
  induction d as [|[a b] r IH]; cbn; [reflexivity|].
  intros H. destruct (String.eqb a k) eqn:E.
  - apply String.eqb_eq in E. tauto.
  - apply IH. tauto.
Qed.

(** ** Valuations *)

Lemma merge_lookup (default_vals custom_vals : dict) (k : string) :
  NoDup (map fst custom_vals) ->
  lookup (merge_valuations default_vals custom_vals) k
  = match lookup custom_vals k with
    | Some v => Some v
    | None => lookup default_vals k
    end.
Proof.
  unfold merge_valuations. revert default_vals.
  induction custom_vals as [|[a b] r IH]; intros d Hnd; cbn [fold_left lookup].
  - reflexivity.
  - cbn [map fst] in Hnd. apply NoDup_cons_iff in Hnd. destruct Hnd as [Ha Hr].
    rewrite (IH _ Hr). cbn [fst snd]. rewrite lookup_assign.
    destruct (String.eqb a k) eqn:E.
    + apply String.eqb_eq in E. subst a. now rewrite (lookup_not_in r k Ha).
    + reflexivity.
Qed.

(** X1.  In the merged valuations a custom valuation wins over the
    default under the same key, and a key without a custom valuation
    keeps its default. *)
Theorem merge_custom_wins (default_vals custom_vals : dict) (k : string) :
  NoDup (map fst custom_vals) ->
  lookup (merge_valuations default_vals custom_vals) k
  = match lookup custom_vals k with
    | Some v => Some v
    | None => lookup default_vals k
    end.
Proof. exact (merge_lookup default_vals custom_vals k). Qed.


Lemma user_data_now (file : option json) (now now' : string) (k : string)
    (default : json) :
  k <> "last_updated" ->
  get (get_user_data file now) k default
  = get (get_user_data file now') k default.
Proof.
  intros Hk. unfold get_user_data. destruct (loaded file); [reflexivity|].
  cbn [get lookup].
  destruct (String.eqb "wallet" k); [reflexivity|].
  destruct (String.eqb "custom_valuations" k); [reflexivity|].
  destruct (String.eqb "credits" k); [reflexivity|].
  destruct (String.eqb "last_updated" k) eqn:E; [|reflexivity].
  apply String.eqb_eq in E. congruence.
Qed.

Lemma user_data_dict (file : option json) (now k : string) (default v : json) :
  get (get_user_data file now) k default = Ok v ->
  exists d, get_user_data file now = JDict d
    /\ v = match lookup d k with Some x => x | None => default end.
Proof.
  destruct (get_user_data file now) as [| | | | |d]; cbn; try discriminate.
  intros [= <-]. now exists d.
Qed.


(** The character-wise form of the key normalisation. *)
Lemma valuation_key_chars (s : string) :
  valuation_key s
  = match s with
    | EmptyString => EmptyString
    | String c r =>
        String (let l := lower_ascii c in
                let x := if Ascii.eqb l " " then "_"%char else l in
                if Ascii.eqb x "-" then "_"%char else x)
          (valuation_key r)
    end.
Proof. destruct s; reflexivity. Qed.

(** X2.  The key normalisation of [set_custom_valuation], of
    [get_valuations] and of the valuation lookups is idempotent: a key
    that has been filed is its own normal form. *)
Theorem valuation_key_idempotent (currency : string) :
  valuation_key (valuation_key currency) = valuation_key currency.
Proof.
  induction currency as [|c r IH]; [reflexivity|].
  rewrite (valuation_key_chars (String c r)).
  rewrite valuation_key_chars. rewrite IH. f_equal.
  destruct c as [[] [] [] [] [] [] [] []]; reflexivity.
Qed.


(** ** Merchant credits *)

(** X4.  A merchant credit that is added can be removed again:
    [add_merchant_credit] puts the merchant, with the time it was added,
    behind the credits the file had, [remove_merchant_credit] then
    answers [True] and leaves the credits as they were before; and
    removing a merchant that has no credit answers [False] and does not
    touch the file. *)
Theorem merchant_credit_round_trip (file : option json)
    (now added_at saved_at now' saved_at' merchant : string) (old : dict) :
  get_user_credits file now = Ok (JDict old) ->
  lookup old merchant = None ->
  remove_merchant_credit file now saved_at merchant = Ok (false, file)
  /\ exists file1 file2,
       add_merchant_credit file now added_at saved_at merchant = Ok file1
       /\ get_user_credits file1 now'
          = Ok (JDict (old ++ [(merchant, JDict [("added_at", JStr added_at)])]))
       /\ remove_merchant_credit file1 now' saved_at' merchant
          = Ok (true, file2)
       /\ get_user_credits file2 now' = Ok (JDict old).
Proof.
  intros Hold Hnew. unfold get_user_credits in Hold.
  destruct (user_data_dict _ _ _ _ _ Hold) as [d [Hd Hv]].
  split.
  - unfold remove_merchant_credit. rewrite Hold. cbn [bind has_key].
    now rewrite Hnew.
  - unfold add_merchant_credit. rewrite Hold, Hd.
    cbn [bind set_key save_user_data].
    do 2 eexists. split; [reflexivity|].
    unfold get_user_credits, remove_merchant_credit.
    cbn [get_user_data loaded get bind].
    rewrite !lookup_assign. cbn [String.eqb Ascii.eqb Bool.eqb].
    rewrite (assign_new old merchant _ Hnew).
    split; [reflexivity|].
    cbn [has_key bind del_key set_key save_user_data].
    assert (lookup (old ++ [(merchant, JDict [("added_at", JStr added_at)])])
              merchant <> None) as Hin.
    { rewrite <- (assign_new old merchant _ Hnew), lookup_assign.
      now rewrite String.eqb_refl. }
    destruct (lookup (old ++ _) merchant); [|contradiction].
    cbn [bind]. split; [reflexivity|].
    cbn [get_user_data loaded get]. rewrite !lookup_assign.
    cbn [String.eqb Ascii.eqb Bool.eqb].
    rewrite <- (assign_new old merchant _ Hnew).
    now rewrite (discard_assign_new old merchant _ Hnew).
Qed.

(** ** Resolution, once more: where a returned record comes from *)

Lemma exact_match_key (lk : table) (q : string) (names : list json)
    (card : json) :
  exact_match lk q names = Ok (Some card) ->
  exists s, In (JStr s) names /\ lower s = q /\ getitem lk (JStr s) = Ok card.
Proof.
  induction names as [|name rest IH]; cbn; [discriminate|].
  destruct name as [| | |s| |]; cbn; try discriminate.
  destruct (String.eqb q (lower s)) eqn:E.
  - destruct (getitem lk (JStr s)) as [v|] eqn:Hget; cbn; [|discriminate].
    intros [= <-]. exists s. apply String.eqb_eq in E. now repeat split; [left|..].
  - intros H. destruct (IH H) as [s' [H1 H2]]. exists s'. split; [now right|exact H2].
Qed.

Lemma best_from_in (WRatio : string -> string -> Q) (query : string)
    (choices : list json) (acc : option (json * Q)) (c : json) (sc : Q) :
  best_from WRatio query acc choices = Ok (Some (c, sc)) ->
  In c choices \/ acc = Some (c, sc).
Proof.
  revert acc. induction choices as [|ch rest IH]; intros acc; cbn.
  - intros [= ->]. now right.
  - destruct ch as [| | |s| |]; try discriminate.
    destruct acc as [[x a]|].
    + destruct (Qle_bool (WRatio query s) a); intros H;
        destruct (IH _ H) as [Hin|Hacc]; auto.
      injection Hacc as <- _. auto.
    + intros H. destruct (IH _ H) as [Hin|Hacc]; auto.
      injection Hacc as <- _. auto.
Qed.

(** A record that is returned sits in the lookup dict under a key that
    is a text. *)
Lemma resolution_key (WRatio : string -> string -> Q) (threshold : Z)
    (cards : list json) (query : string) (card : json) :
  get_credit_card_by_name WRatio threshold cards query = Ok (Some card) ->
  exists lk s,
    build_lookup cards [] = Ok lk
    /\ In (JStr s) (map fst lk)
    /\ getitem lk (JStr s) = Ok card.
Proof.
  unfold get_credit_card_by_name.
  destruct cards as [|c0 cs]; [discriminate|].
  destruct (build_lookup (c0 :: cs) []) as [lk|] eqn:Hlk; cbn [bind];
    [|discriminate].
  destruct (exact_match lk (strip (lower query)) (map fst lk)) as [hit|] eqn:Hex;
    cbn [bind]; [|discriminate].
  destruct hit as [v|].
  - intros [= <-]. destruct (exact_match_key _ _ _ _ Hex) as [s [H1 [_ H2]]].
    now exists lk, s.
  - rewrite extractOne_accept.
    destruct (best_from WRatio query None (map fst lk)) as [r|] eqn:Hb;
      cbn [bind]; [|discriminate].
    destruct (accept (inject_Z threshold) r) as [[m sc]|] eqn:Ha; [|discriminate].
    assert (r = Some (m, sc)) as ->.
    { destruct r as [[x y]|]; cbn in Ha; [|discriminate].
      destruct (Qle_bool (inject_Z threshold) y); [exact Ha|discriminate]. }
    destruct (best_from_str _ _ _ None _ _ ltac:(discriminate) Hb) as [s ->].
    destruct (best_from_in _ _ _ _ _ _ Hb) as [Hin|]; [|discriminate].
    destruct (getitem lk (JStr s)) as [v|] eqn:Hget; cbn [bind]; [|discriminate].
    intros [= <-]. now exists lk, s.
Qed.

Lemma named_dict (card : json) (s : string) :
  named card s ->
  exists d, card = JDict d /\ lookup d "card_name" = Some (JStr s).
Proof.
  intros [H _]. destruct card as [| | | | |d]; cbn in H; try discriminate.
  exists d. split; [reflexivity|].
  destruct (lookup d "card_name"); [congruence|discriminate].
Qed.

(** A record that is returned is an object of the catalog with a
    non-empty name. *)
Lemma resolved_card (WRatio : string -> string -> Q) (threshold : Z)
    (cards : list json) (query : string) (card : json) :
  get_credit_card_by_name WRatio threshold cards query = Ok (Some card) ->
  In card cards
  /\ exists d s, card = JDict d /\ lookup d "card_name" = Some (JStr s)
       /\ s <> "".
Proof.
  intros H. destruct (resolution_key _ _ _ _ _ H) as [lk [s [Hlk [_ Hget]]]].
  assert (Forall (entry_ok cards) lk) as Hok.
  { eapply build_lookup_ok; [apply incl_refl|constructor|exact Hlk]. }
  destruct (getitem_named _ _ _ _ Hok Hget) as [Hin Hn].
  split; [exact Hin|]. destruct (named_dict _ _ Hn) as [d [-> Hd]].
  exists d, s. repeat split; trivial. apply Hn.
Qed.

Lemma exact_match_total (lk : table) (q : string) (names : list json) :
  Forall (fun k => (exists s, k = JStr s) /\ In k (map fst lk)) names ->
  exists r, exact_match lk q names = Ok r.
Proof.
  induction 1 as [|k names [[s ->] Hk] Hr IH]; cbn [exact_match lower_of bind].
  - now eexists.
  - destruct (String.eqb q (lower s)); [|exact IH].
    destruct (getitem_total lk s Hk) as [v ->]. now eexists.
Qed.

Lemma best_from_total (WRatio : string -> string -> Q) (query : string)
    (choices : list json) (acc : option (json * Q)) :
  Forall (fun k => exists s, k = JStr s) choices ->
  exists r, best_from WRatio query acc choices = Ok r.
Proof.
  intros H. revert acc. induction H as [|k choices [s ->] Hr IH]; intros acc;
    cbn [best_from].
  - now eexists.
  - destruct acc as [[x a]|]; [destruct (Qle_bool _ a)|]; apply IH.
Qed.

(** On a catalog of card objects the resolution raises no exception. *)
Lemma resolution_total (WRatio : string -> string -> Q)
    (threshold : Z) (cards : list json) (query : string) :
  Forall card_object cards ->
  exists answer,
    get_credit_card_by_name WRatio threshold cards query = Ok answer.
Proof.
  intros Hobj. unfold get_credit_card_by_name.
  destruct cards as [|c0 cs]; [now eexists|].
  destruct (build_lookup_objects (c0 :: cs) [] Hobj (Forall_nil _))
    as [lk [Hlk [Hstr _]]].
  rewrite Hlk. cbn [bind].
  assert (Forall (fun k => (exists s, k = JStr s) /\ In k (map fst lk))
            (map fst lk)) as Hnames.
  { rewrite Forall_forall. intros k Hk. split; [|exact Hk].
    apply in_map_iff in Hk. destruct Hk as [x [<- Hx]].
    rewrite Forall_forall in Hstr. exact (Hstr x Hx). }
  destruct (exact_match_total lk (strip (lower query)) _ Hnames) as [hit ->].
  cbn [bind]. destruct hit as [v|]; [now eexists|].
  rewrite extractOne_accept.
  assert (Forall (fun k => exists s, k = JStr s) (map fst lk)) as Hs
    by (revert Hnames; apply Forall_impl; tauto).
  destruct (best_from_total WRatio query _ None Hs) as [r Hr].
  rewrite Hr. cbn [bind].
  destruct (accept (inject_Z threshold) r) as [[m sc]|] eqn:Ha; [|now eexists].
  assert (r = Some (m, sc)) as ->.
  { destruct r as [[x y]|]; cbn in Ha; [|discriminate].
    destruct (Qle_bool (inject_Z threshold) y); [exact Ha|discriminate]. }
  destruct (best_from_in _ _ _ _ _ _ Hr) as [Hin|]; [|discriminate].
  rewrite Forall_forall in Hs. destruct (Hs m Hin) as [s ->].
  destruct (getitem_total lk s Hin) as [v ->]. now eexists.
Qed.

(** X5.  On a catalog of card objects [get_credit_card_by_name] raises
    no exception: every query, with every scorer and threshold, is
    answered with a record or with [None]. *)
Theorem resolution_never_raises (WRatio : string -> string -> Q)
    (threshold : Z) (cards : list json) (query : string) :
  Forall card_object cards ->
  exists answer,
    get_credit_card_by_name WRatio threshold cards query = Ok answer.
Proof. exact (resolution_total WRatio threshold cards query). Qed.

(** ** The wallet *)











Section WalletFacts.

Variable WRatio : string -> string -> Q.
Variable threshold : Z.
Variable cards : list json.




End WalletFacts.


(** ** The enriched view of the wallet *)

Section WalletView.

Variable WRatio : string -> string -> Q.
Variable threshold : Z.
Variable cards : list json.

Lemma resolve_card (v card : json) :
  resolve WRatio threshold cards v = Ok (Some card) ->
  In card cards
  /\ exists d s, card = JDict d /\ lookup d "card_name" = Some (JStr s)
       /\ s <> "".
Proof.
  unfold resolve. destruct cards as [|c0 cs] eqn:Hc; [discriminate|].
  destruct v as [| | |s| |]; try discriminate.
  rewrite <- Hc. apply resolved_card.
Qed.

Lemma enrich_shown (entries ws : list json) :
  enrich WRatio threshold cards entries = Ok ws ->
  (List.length ws <= List.length entries)%nat
  /\ Forall (fun w => exists entry card,
               In entry entries /\ In card cards
               /\ shown card entry = Some w) ws.
Proof.
  revert ws. induction entries as [|e es IH]; intros ws; cbn [enrich].
  - intros [= <-]. split; [cbn; lia|constructor].
  - assert (forall l, enrich WRatio threshold cards es = Ok l ->
              (List.length l <= List.length (e :: es))%nat
              /\ Forall (fun w => exists entry card,
                           In entry (e :: es) /\ In card cards
                           /\ shown card entry = Some w) l) as IH'.
    { intros l Hl. destruct (IH l Hl) as [H1 H2]. split; [cbn; lia|].
      revert H2. apply Forall_impl. intros w [entry [card [? [? ?]]]].
      exists entry, card. repeat split; trivial. now right. }
    destruct (get e "card_name" (JStr "")) as [v|]; cbn [bind]; [|discriminate].
    destruct (resolve WRatio threshold cards v) as [[c|]|] eqn:Hr; cbn [bind];
      [|now apply IH'|discriminate].
    destruct (resolve_card v c Hr) as [Hin [d [s [-> [Hd Hs]]]]].
    destruct (truthy (JDict d)); [|now apply IH'].
    destruct (get_opt e "note") as [note|] eqn:Hn; cbn [bind]; [|discriminate].
    assert ((if truthy note then set_key (JDict d) "user_note" note
             else Ok (JDict d))
            = Ok (if truthy note then JDict (assign d "user_note" note)
                  else JDict d)) as -> by (now destruct (truthy note)).
    cbn [bind].
    destruct (enrich WRatio threshold cards es) as [l|] eqn:Hl; cbn [bind];
      [|discriminate].
    intros [= <-]. destruct (IH' l eq_refl) as [_ H2].
    destruct (IH l eq_refl) as [H1 _].
    split; [cbn; lia|]. constructor; [|exact H2].
    exists e, (JDict d). split; [now left|]. split; [exact Hin|].
    unfold shown. now rewrite Hn.
Qed.

(** X10.  [get_user_wallet] shows catalog records only: every record of
    the view is an entry of the catalog, with the note of a wallet entry
    added as [user_note] when that note is truthy and otherwise
    unchanged; there is at most one record for each wallet entry, so an
    entry that does not resolve is dropped and nothing is invented. *)
Theorem wallet_view_shows_catalog_cards (file : option json) (now : string)
    (view : list json) :
  get_user_wallet WRatio threshold cards file now = Ok view ->
  exists entries,
    wallet_of file = Ok entries
    /\ (List.length view <= List.length entries)%nat
    /\ Forall (fun w => exists entry card,
                 In entry entries /\ In card cards
                 /\ shown card entry = Some w) view.
Proof.
  unfold get_user_wallet, wallet_of.
  rewrite (user_data_now file "" now) by discriminate.
  destruct (get (get_user_data file now) "wallet" (JList [])) as [w|];
    cbn [bind]; [|discriminate].
  destruct (iter w) as [entries|]; cbn [bind]; [|discriminate].
  intros H. exists entries. split; [reflexivity|]. now apply enrich_shown.
Qed.




Hypothesis catalog_objects : Forall card_object cards.




End WalletView.

(** * tools.py: get_top_card_offers *)

Lemma firstn_sorted (A : Type) (R : A -> A -> Prop) (n : nat) (l : list A) :
  StronglySorted R l -> StronglySorted R (firstn n l).
Proof.
  intros H. revert n. induction H as [|x r Hr IH Hx]; intros [|n]; cbn;
    try constructor.
  - apply IH.
  - now apply firstn_Forall.
Qed.


Section OfferFacts.

Variable float_of_string : string -> option Q.






End OfferFacts.

(** * tools.py: get_valuations *)















(** * tools.py: get_credit_card_info *)

Lemma existsb_false (A : Type) (f : A -> bool) (l : list A) :
  existsb f l = false <-> Forall (fun x => f x = false) l.
Proof.
  induction l as [|x r IH]; cbn.
  - split; [constructor|reflexivity].
  - rewrite orb_false_iff, IH. split.
    + intros [Hx Hr]. now constructor.
    + intros H. inversion H. now split.
Qed.

(** X17.  [get_credit_card_info] hands out a record exactly when the
    name passes its checks and [get_credit_card_by_name] finds that
    record; the record is then an entry of the catalog with a non-empty
    name.  So a name that is empty, longer than 200 characters or holds
    a forbidden text never leads to a record, whatever the catalog. *)
Theorem card_info_found_iff (WRatio : string -> string -> Q) (threshold : Z)
    (cards : list json) (card_name : string) (card : json) :
  (get_credit_card_info WRatio threshold cards card_name = Done (Card card)
   <-> valid_card_name card_name
       /\ get_credit_card_by_name WRatio threshold cards card_name
          = Ok (Some card))
  /\ (get_credit_card_info WRatio threshold cards card_name = Done (Card card)
      -> In card cards /\ exists s, named card s).
Proof.
  assert (get_credit_card_info WRatio threshold cards card_name
            = Done (Card card)
          <-> valid_card_name card_name
              /\ get_credit_card_by_name WRatio threshold cards card_name
                 = Ok (Some card)) as Hiff.
  { unfold get_credit_card_info, valid_card_name.
    destruct (String.eqb card_name "") eqn:Ee.
    { apply String.eqb_eq in Ee. cbn. split; [discriminate|tauto]. }
    apply String.eqb_neq in Ee.
    destruct (200 <? Z.of_nat (String.length card_name)) eqn:El.
    { apply Z.ltb_lt in El. cbn. split; [discriminate|lia]. }
    apply Z.ltb_ge in El.
    destruct (existsb _ forbidden) eqn:Ef.
    { cbn [try_except]. split; [discriminate|].
      intros [[_ [_ Hf]] _]. apply existsb_false in Hf. congruence. }
    apply existsb_false in Ef.
    destruct (get_credit_card_by_name WRatio threshold cards card_name)
      as [[c|]|] eqn:Hres; cbn [bind try_except].
    - destruct (resolved_card _ _ _ _ _ Hres) as [_ [d [s [-> [Hd _]]]]].
      assert (truthy (JDict d) = true) as -> by (destruct d; [discriminate|reflexivity]).
      split.
      + intros [= <-]. tauto.
      + intros [_ [= <-]]. reflexivity.
    - split; [discriminate|]. intros [_ H]. discriminate.
    - split; [discriminate|]. intros [_ H]. discriminate. }
  split; [exact Hiff|].
  intros H. apply Hiff in H. destruct H as [_ Hres].
  destruct (resolved_card _ _ _ _ _ Hres) as [Hin [d [s [-> [Hd Hs]]]]].
  split; [exact Hin|]. exists s. split; [|exact Hs].
  cbn. now rewrite Hd.
Qed.

(** * miles.py: the checks on downloaded data *)

Lemma collect_valuations_keys (raw acc : dict) :
  (forall k, lookup acc k <> None -> lookup (collect_valuations raw acc) k <> None)
  /\ forall k, lookup (collect_valuations raw acc) k <> None ->
       lookup acc k <> None \/ In k (map fst raw).
Proof.
  revert acc. induction raw as [|[p v] rest IH]; intros acc;
    cbn [collect_valuations map fst In]; [tauto|].
  match goal with
  | |- context [collect_valuations rest ?a] =>
      destruct (IH a) as [Hkeep Hfrom];
      assert (forall k, lookup acc k <> None -> lookup a k <> None) as Hacc;
      [|assert (forall k, lookup a k <> None ->
                  lookup acc k <> None \/ p = k) as Hnew]
  end.
  - intros k Hk. destruct v; try exact Hk; rewrite lookup_assign;
      destruct (String.eqb p k); try discriminate; exact Hk.
  - intros k. destruct v; try tauto; rewrite lookup_assign;
      (destruct (String.eqb p k) eqn:E;
       [apply String.eqb_eq in E; tauto|tauto]).
  - split.
    + intros k Hk. now apply Hkeep, Hacc.
    + intros k Hk. destruct (Hfrom k Hk) as [H|H]; [|tauto].
      destruct (Hnew k H); tauto.
Qed.

(** X18.  A valuations document that [_validate_valuations_data]
    accepts can be loaded: [get_default_valuations] raises nothing on
    it, gives values only to programs of the document, and gives one to
    the first program, the one that the check has looked at. *)
Theorem validated_valuations_load (data : json) :
  _validate_valuations_data data = true ->
  exists raw defaults,
    get data "valuations" (JDict []) = Ok (JDict raw)
    /\ get_default_valuations (Some data) = Ok defaults
    /\ (forall k, lookup defaults k <> None -> In k (map fst raw))
    /\ match raw with
       | [] => defaults = []
       | (sample_key, _) :: _ => lookup defaults sample_key <> None
       end.
Proof.
  unfold _validate_valuations_data, get_default_valuations.
  destruct data as [| | | | |d]; try discriminate.
  cbn [loaded get bind].
  destruct (lookup d "valuations") as [[| | | | |raw]|]; try discriminate.
  intros Hv. exists raw, (collect_valuations raw []).
  split; [reflexivity|]. split; [reflexivity|]. split.
  - intros k Hk.
    destruct (proj2 (collect_valuations_keys raw []) k Hk) as [H|H];
      [now destruct H|exact H].
  - destruct raw as [|[sample_key sample_val] rest]; [reflexivity|].
    cbn [collect_valuations].
    apply (proj1 (collect_valuations_keys rest _)).
    destruct sample_val as [| | | | |v]; try discriminate;
      cbn [assign lookup]; rewrite String.eqb_refl; discriminate.
Qed.

(** X19.  The check of the catalog looks at the first entry only, and
    with [in]: a document whose first entry is a text that holds both
    field names passes [_validate_credit_cards_data], and on that
    catalog every call of [get_credit_card_by_name] raises
    [AttributeError]. *)
Theorem validated_catalog_can_fail (WRatio : string -> string -> Q)
    (threshold : Z) (s : string) (rest : list json) (query : string) :
  contains "card_name" s = true ->
  contains "issuer" s = true ->
  _validate_credit_cards_data (JList (JStr s :: rest)) = Ok true
  /\ get_credit_card_by_name WRatio threshold (JStr s :: rest) query
     = Raise AttributeError.
Proof.
  intros Hn Hi. split.
  - cbn [_validate_credit_cards_data has_all has_key bind].
    now rewrite Hn, Hi.
  - reflexivity.
Qed.

(** * tools.py: more on the search and the transfer tools *)

(** ** credit_card_search *)

Lemma score_lt_key (a b : search_match) :
  score_lt a b
  = negb (Qle_bool (inject_Z (sm_score b)) (inject_Z (sm_score a))).
Proof.
  unfold score_lt, Qle_bool. cbn [inject_Z Qnum Qden].
  rewrite !Z.mul_1_r. rewrite Z.ltb_antisym. reflexivity.
Qed.

Lemma sorted_impl (A : Type) (R S : A -> A -> Prop) (l : list A) :
  (forall a b, R a b -> S a b) -> StronglySorted R l -> StronglySorted S l.
Proof.
  intros HRS. induction 1 as [|x r Hr IH Hx]; constructor; [exact IH|].
  revert Hx. apply Forall_impl. intros b. apply HRS.
Qed.

Lemma total_weight_app (l1 l2 : list reason) :
  total_weight (l1 ++ l2) = total_weight l1 + total_weight l2.
Proof.
  induction l1 as [|x r IH]; cbn [app total_weight fold_right]; [reflexivity|].
  fold (total_weight (r ++ l2)). fold (total_weight r). lia.
Qed.

Lemma score_field_accounted (query_lower : string) (card : json)
    (field : string) (why : reason) (t t' : tally) :
  accounted t ->
  score_field query_lower card field (weight why) why t = Ok t' ->
  accounted t'.
Proof.
  unfold score_field, accounted. intros Ht.
  destruct (get card field (JStr "")) as [v|]; cbn [bind]; [|discriminate].
  destruct (lower_of v) as [l|]; cbn [bind]; [|discriminate].
  destruct (contains query_lower l); intros [= <-]; [|exact Ht].
  cbn [fst snd]. rewrite total_weight_app, Ht. cbn. lia.
Qed.

Lemma score_items_accounted (query_lower field : string)
    (why : json -> reason) (items : list json) (t t' : tally) :
  (forall v, weight (why v) = 2) ->
  accounted t ->
  score_items query_lower field why items t = Ok t' ->
  accounted t'.
Proof.
  intros Hw. revert t. induction items as [|item rest IH]; intros t Ht;
    cbn [score_items].
  - now intros [= <-].
  - destruct (get item field (JStr "")) as [v|]; cbn [bind]; [|discriminate].
    destruct (lower_of v) as [l|]; cbn [bind]; [|discriminate].
    destruct (get_opt item field) as [shown|]; cbn [bind]; [|discriminate].
    apply IH. destruct (contains query_lower l); [|exact Ht].
    unfold accounted in *. cbn [fst snd].
    rewrite total_weight_app, Ht. cbn. rewrite Hw. lia.
Qed.

Lemma score_card_accounted (query_lower : string) (card : json) (t : tally) :
  score_card query_lower card = Ok t -> accounted t.
Proof.
  unfold score_card.
  destruct (score_field query_lower card "card_name" 10 CardNameMatch (0, []))
    as [t1|] eqn:H1; cbn [bind]; [|discriminate].
  apply (score_field_accounted _ _ _ CardNameMatch) in H1; [|reflexivity].
  destruct (score_field query_lower card "issuer" 5 IssuerMatch t1)
    as [t2|] eqn:H2; cbn [bind]; [|discriminate].
  apply (score_field_accounted _ _ _ IssuerMatch) in H2; [|exact H1].
  destruct (score_field query_lower card "rewards_currency" 3
              RewardsCurrencyMatch t2) as [t3|] eqn:H3; cbn [bind];
    [|discriminate].
  apply (score_field_accounted _ _ _ RewardsCurrencyMatch) in H3; [|exact H2].
  destruct (get card "reward_multipliers" (JList [])) as [m|]; cbn [bind];
    [|discriminate].
  destruct (iter m) as [ms|]; cbn [bind]; [|discriminate].
  destruct (score_items query_lower "category" Category ms t3)
    as [t4|] eqn:H4; cbn [bind]; [|discriminate].
  apply score_items_accounted in H4; [|reflexivity|exact H3].
  destruct (get card "benefits" (JDict [])) as [b|]; cbn [bind];
    [|discriminate].
  destruct (get b "credits" (JList [])) as [c|]; cbn [bind]; [|discriminate].
  destruct (iter c) as [cs|]; cbn [bind]; [|discriminate].
  destruct (score_items query_lower "type" Credit cs t4)
    as [t5|] eqn:H5; cbn [bind]; [|discriminate].
  apply score_items_accounted in H5; [|reflexivity|exact H4].
  destruct (get b "lounge" (JList [])) as [l|]; cbn [bind]; [|discriminate].
  destruct (iter l) as [ls|]; cbn [bind]; [|discriminate].
  destruct (score_items query_lower "type" Lounge ls t5)
    as [t6|] eqn:H6; cbn [bind]; [|discriminate].
  apply score_items_accounted in H6; [|reflexivity|exact H5].
  intros H7.
  apply (score_field_accounted _ _ _ CardTypeMatch) in H7; [exact H7|exact H6].
Qed.

Lemma collect_matches_accounted (query_lower : string) (cards : list json)
    (matches : list search_match) :
  collect_matches query_lower cards = Ok matches ->
  Forall (fun r => exists reasons,
            sm_score r = total_weight reasons
            /\ sm_match_reasons r = firstn 3 reasons) matches.
Proof.
  revert matches. induction cards as [|c cs IH]; intros matches; cbn.
  - intros [= <-]. constructor.
  - destruct (score_card query_lower c) as [t|] eqn:Ht; cbn [bind];
      [|discriminate].
    destruct (0 <? fst t) eqn:E; [|apply IH].
    unfold summarize.
    repeat (match goal with
            | |- context [bind (get_opt ?c ?f) _] =>
                destruct (get_opt c f); cbn [bind]; [|discriminate]
            end).
    destruct (collect_matches query_lower cs) as [ms|]; cbn [bind];
      [|discriminate].
    intros [= <-]. constructor; [|now apply IH].
    exists (snd t). cbn. split; [|reflexivity].
    exact (score_card_accounted _ _ _ Ht).
Qed.

(** X20.  The results of a search stand in descending order of the
    score, and results of equal score in the order of the cards that
    were searched: they are the first ones of that score among the
    matches of the scoring loop. *)
Theorem search_results_ranked (cards : list json) (now : datetime)
    (query : string) (max_results recently_updated : json)
    (results : list search_match) :
  credit_card_search cards now query max_results recently_updated
    = Done results ->
  StronglySorted by_score results
  /\ exists pool matches,
       eligible_cards now recently_updated cards = Ok (Done pool)
       /\ collect_matches (lower query) pool = Ok matches
       /\ forall score, exists later,
            filter (fun r => sm_score r =? score) matches
            = filter (fun r => sm_score r =? score) results ++ later.
Proof.
  intros H. apply credit_card_search_done in H.
  destruct H as [_ [m [pool [ranked [_ [Hpool [Hrank ->]]]]]]].
  pose proof Hrank as Hrank'. unfold ranked_matches in Hrank.
  destruct (collect_matches (lower query) pool) as [matches|] eqn:Hm;
    cbn [bind] in Hrank; [|discriminate].
  injection Hrank as <-. split.
  - apply firstn_sorted.
    apply (sorted_impl _ (fun a b =>
             (inject_Z (sm_score b) <= inject_Z (sm_score a))%Q)).
    + intros a b Hab. unfold by_score. rewrite Zle_Qle. exact Hab.
    + exact (sort_desc_sorted _ score_lt (fun r => inject_Z (sm_score r))
               score_lt_key matches).
  - exists pool, matches. split; [exact Hpool|]. split; [exact Hm|].
    intros score.
    exists (filter (fun r => sm_score r =? score)
              (skipn (Z.to_nat (Z.min m 50)) (sort_desc score_lt matches))).
    rewrite <- filter_app, firstn_skipn.
    symmetry. exact (ranked_ties_keep_order query pool matches _ score Hm Hrank').
Qed.

(** X21.  The score of a result is accounted for by its match reasons:
    it is the total weight of the reasons that the card has collected,
    10 for the card name, 5 for the issuer, 3 for the rewards currency
    and for the card type, 2 for each reward category, credit and lounge
    entry; the result lists the first three of these reasons, and at
    least one. *)
Theorem search_score_is_accounted_for (cards : list json) (now : datetime)
    (query : string) (max_results recently_updated : json)
    (results : list search_match) :
  credit_card_search cards now query max_results recently_updated
    = Done results ->
  Forall (fun r => exists reasons,
            sm_score r = total_weight reasons
            /\ sm_match_reasons r = firstn 3 reasons
            /\ sm_match_reasons r <> []) results.
Proof.
  intros H. apply credit_card_search_done in H.
  destruct H as [_ [m [pool [ranked [_ [_ [Hrank ->]]]]]]].
  unfold ranked_matches in Hrank.
  destruct (collect_matches (lower query) pool) as [matches|] eqn:Hm;
    cbn [bind] in Hrank; [|discriminate].
  injection Hrank as <-.
  apply firstn_Forall, sort_desc_Forall.
  pose proof (collect_matches_accounted _ _ _ Hm) as Hacc.
  pose proof (collect_matches_positive _ _ _ Hm) as Hpos.
  rewrite Forall_forall in *. intros r Hr.
  destruct (Hacc r Hr) as [reasons [Hs Hf]]. specialize (Hpos r Hr).
  exists reasons. split; [exact Hs|]. split; [exact Hf|].
  rewrite Hf. destruct reasons; [|discriminate].
  cbn in Hs. lia.
Qed.

(** ** lookup_transfer_partners *)





(** ** get_transfer_bonuses *)





(** ** benefits_search *)

Section BenefitStages.

Variable repr : json -> string.

Lemma any_field_hit (query_lower : string) (items : list json) (b : bool) :
  any_field query_lower "type" items = Ok b ->
  existsb (of_kind query_lower) items = true -> b = true.
Proof.
  induction items as [|item rest IH]; cbn [any_field existsb];
    [discriminate 2|].
  unfold of_kind at 1, field.
  destruct (get item "type" (JStr "")) as [v|]; cbn [bind]; [|discriminate].
  destruct v as [| | |s| |]; cbn [lower_of bind]; try discriminate.
  destruct (contains query_lower (lower s)); [now intros [= <-]|].
  cbn [orb]. exact IH.
Qed.

Lemma early_stages_hit (query_lower : string) (card : json) (b : bool) :
  card_matches repr query_lower card = Ok b ->
  offers_benefit query_lower card = true -> b = true.
Proof.
  unfold card_matches, offers_benefit, field.
  destruct (get card "benefits" (JDict [])) as [benefits|]; cbn [bind];
    [|discriminate].
  destruct (earlier_matches query_lower benefits) as [[|]|] eqn:He;
    cbn [bind]; try discriminate; [now intros [= <-]|].
  intros _ Hoff. exfalso. revert He. unfold earlier_matches, edges_of in *.
  destruct (get benefits "credits" (JList [])) as [c|]; cbn [bind];
    [|discriminate].
  destruct (iter c) as [cs|]; cbn [bind]; [|discriminate].
  destruct (any_field query_lower "type" cs) as [m1|] eqn:H1; cbn [bind];
    [|discriminate].
  destruct m1; [discriminate|].
  destruct (get benefits "lounge" (JList [])) as [l|]; cbn [bind];
    [|discriminate].
  destruct (iter l) as [ls|]; cbn [bind]; [|discriminate].
  destruct (any_field query_lower "type" ls) as [m2|] eqn:H2; cbn [bind];
    [|discriminate].
  destruct m2; [discriminate|]. intros _.
  apply orb_true_iff in Hoff. destruct Hoff as [Hoff|Hoff].
  - pose proof (any_field_hit _ _ _ H1 Hoff). discriminate.
  - pose proof (any_field_hit _ _ _ H2 Hoff). discriminate.
Qed.

Lemma benefit_matches_listed (query_lower : string) (cards : list json)
    (matches : list benefit_match) :
  benefit_matches repr query_lower cards = Ok matches ->
  (List.length matches <= List.length cards)%nat
  /\ forall card, In card cards ->
       exists b, card_matches repr query_lower card = Ok b
         /\ (b = true -> exists m, describe card = Ok m /\ In m matches).
Proof.
  revert matches. induction cards as [|c cs IH]; intros matches;
    cbn [benefit_matches].
  - intros [= <-]. split; [apply Nat.le_refl|intros card []].
  - destruct (card_matches repr query_lower c) as [b|] eqn:Hc; cbn [bind];
      [|discriminate].
    destruct b.
    + destruct (describe c) as [m|] eqn:Hd; cbn [bind]; [|discriminate].
      destruct (benefit_matches repr query_lower cs) as [ms|]; cbn [bind];
        [|discriminate].
      intros [= <-]. destruct (IH ms eq_refl) as [Hlen Hall].
      split; [cbn; lia|].
      intros card [<-|Hin].
      * exists true. split; [exact Hc|]. intros _. exists m.
        split; [exact Hd|now left].
      * destruct (Hall card Hin) as [b [Hb Hm]]. exists b.
        split; [exact Hb|]. intros Ht. destruct (Hm Ht) as [m' [Hd' Hin']].
        exists m'. split; [exact Hd'|now right].
    + intros H. destruct (IH matches H) as [Hlen Hall].
      split; [cbn; lia|].
      intros card [<-|Hin]; [|now apply Hall].
      exists false. split; [exact Hc|discriminate].
Qed.

(** X24.  [benefits_search] lists every card that has a credit or a
    lounge access whose type contains the query, whatever else the query
    says: these two stages come before the others.  There is at most one
    match for each card, and the list is not cut. *)
Theorem credits_and_lounges_are_found (cards : list json) (query : string)
    (matches : list benefit_match) (card : json) :
  benefits_search repr cards query = Done matches ->
  In card cards ->
  offers_benefit (lower query) card = true ->
  (List.length matches <= List.length cards)%nat
  /\ exists m, describe card = Ok m /\ In m matches.
Proof.
  unfold benefits_search.
  destruct (String.eqb query ""); [discriminate|].
  destruct (500 <? Z.of_nat (String.length query)); [discriminate|].
  destruct (benefit_matches repr (lower query) cards) as [ms|] eqn:Hms;
    cbn [bind try_except]; [|discriminate].
  intros [= <-] Hin Hoff.
  destruct (benefit_matches_listed _ _ _ Hms) as [Hlen Hall].
  split; [exact Hlen|].
  destruct (Hall card Hin) as [b [Hb Hm]].
  apply Hm. exact (early_stages_hit _ _ _ Hb Hoff).
Qed.

End BenefitStages.
(** ** Examples for the wallet, the valuations and the credits *)

Import MoreSamples.

Ltac distinct_keys :=
  repeat (constructor; [cbn; intuition discriminate|]); constructor.

Ltac card_objects :=
  repeat constructor;
  (eexists; split; [reflexivity|];
   intros v [= <-] _; eexists; reflexivity).


Lemma merge_custom_wins_witness :
  lookup (merge_valuations default_valuations
            [("chase_ultimate_rewards", JNum (PFloat 2.05))])
    "chase_ultimate_rewards"
  = Some (JNum (PFloat 2.05)).
Proof.
  apply (merge_custom_wins default_valuations
           [("chase_ultimate_rewards", JNum (PFloat 2.05))]
           "chase_ultimate_rewards").
  distinct_keys.
Defined.


Lemma merchant_credit_round_trip_witness :
  remove_merchant_credit stored "" "t2" "Uber" = Ok (false, stored)
  /\ exists file1 file2,
       add_merchant_credit stored "" "t1" "t1" "Uber" = Ok file1
       /\ get_user_credits file1 ""
          = Ok (JDict ([("Delta",
                         JDict [("added_at", JStr "2026-10-01T09:00:00+00:00")])]
                       ++ [("Uber", JDict [("added_at", JStr "t1")])]))
       /\ remove_merchant_credit file1 "" "t2" "Uber" = Ok (true, file2)
       /\ get_user_credits file2 ""
          = Ok (JDict [("Delta",
                        JDict [("added_at", JStr "2026-10-01T09:00:00+00:00")])]).
Proof.
  apply (merchant_credit_round_trip stored "" "t1" "t1" "" "t2" "Uber"
           [("Delta", JDict [("added_at", JStr "2026-10-01T09:00:00+00:00")])]).
  - reflexivity.
  - reflexivity.
Defined.

Lemma resolution_never_raises_witness :
  exists answer,
    get_credit_card_by_name sample_ratio 85 catalog "Diners Club" = Ok answer.
Proof.
  apply (resolution_never_raises sample_ratio 85 catalog "Diners Club").
  card_objects.
Defined.




Lemma wallet_view_shows_catalog_cards_witness :
  exists entries,
    wallet_of stored = Ok entries
    /\ (List.length
          [JDict [("card_name", JStr "Chase Sapphire Preferred Credit Card");
                  ("issuer", JStr "Chase"); ("user_note", JStr "travel")]]
        <= List.length entries)%nat
    /\ Forall (fun w => exists entry card,
                 In entry entries /\ In card catalog
                 /\ shown card entry = Some w)
         [JDict [("card_name", JStr "Chase Sapphire Preferred Credit Card");
                 ("issuer", JStr "Chase"); ("user_note", JStr "travel")]].
Proof.
  exact (wallet_view_shows_catalog_cards sample_ratio 85 catalog stored ""
           _ eq_refl).
Defined.



(** ** Examples for the other tools *)

Example top_personal_offers :
  get_top_card_offers sample_float offer_catalog (JNum (PInt 2)) "personal"
  = Done top_personal.
Proof. reflexivity. Qed.



Example valuations_of_two_programs :
  get_valuations merged_valuations (Some valuations_file)
    (Some ["United Airlines-Miles"; "Delta SkyMiles"])
  = Done [("united_mileageplus", JNum (PFloat 1.2))].
Proof. reflexivity. Qed.



Lemma card_info_found_iff_witness :
  In (card "American Express Gold Card" "American Express") catalog
  /\ exists s, named (card "American Express Gold Card" "American Express") s.
Proof.
  apply (proj2 (card_info_found_iff sample_ratio 85 catalog "gold card"
                  (card "American Express Gold Card" "American Express"))).
  reflexivity.
Defined.

Lemma validated_valuations_load_witness :
  exists raw defaults,
    get valuations_file "valuations" (JDict []) = Ok (JDict raw)
    /\ get_default_valuations (Some valuations_file) = Ok defaults
    /\ (forall k, lookup defaults k <> None -> In k (map fst raw))
    /\ match raw with
       | [] => defaults = []
       | (sample_key, _) :: _ => lookup defaults sample_key <> None
       end.
Proof.
  apply (validated_valuations_load valuations_file). reflexivity.
Defined.

Lemma validated_catalog_can_fail_witness :
  _validate_credit_cards_data (JList [JStr "card_name,issuer"; JStr "a,b"])
  = Ok true
  /\ get_credit_card_by_name sample_ratio 85
       [JStr "card_name,issuer"; JStr "a,b"] "a"
     = Raise AttributeError.
Proof.
  apply (validated_catalog_can_fail sample_ratio 85 "card_name,issuer"
           [JStr "a,b"] "a"); reflexivity.
Defined.

Lemma search_results_ranked_witness :
  let results :=
    [found "The Platinum Card from American Express" "American Express" 15
       [CardNameMatch; IssuerMatch];
     found "American Express Gold Card" "American Express" 15
       [CardNameMatch; IssuerMatch]] in
  StronglySorted by_score results
  /\ exists pool matches,
       eligible_cards today JNull catalog = Ok (Done pool)
       /\ collect_matches (lower "express") pool = Ok matches
       /\ forall score, exists later,
            filter (fun r => sm_score r =? score) matches
            = filter (fun r => sm_score r =? score) results ++ later.
Proof.
  exact (search_results_ranked catalog today "express" (JNum (PInt 5)) JNull
           _ eq_refl).
Defined.

Lemma search_score_is_accounted_for_witness :
  Forall (fun r => exists reasons,
            sm_score r = total_weight reasons
            /\ sm_match_reasons r = firstn 3 reasons
            /\ sm_match_reasons r <> [])
    [found "The Platinum Card from American Express" "American Express" 15
       [CardNameMatch; IssuerMatch];
     found "American Express Gold Card" "American Express" 15
       [CardNameMatch; IssuerMatch]].
Proof.
  exact (search_score_is_accounted_for catalog today "express"
           (JNum (PInt 5)) JNull _ eq_refl).
Defined.



Lemma credits_and_lounges_are_found_witness :
  (List.length [fee_credit_match]
   <= List.length [status_card; fee_credit_card])%nat
  /\ exists m, describe fee_credit_card = Ok m /\ In m [fee_credit_match].
Proof.
  apply (credits_and_lounges_are_found show [status_card; fee_credit_card]
           "fee credit" [fee_credit_match] fee_credit_card).
  - reflexivity.
  - right. now left.
  - reflexivity.
Defined.
